(** * proxy-to-grafana and logknob: a shallow embedding

    The two Go files of the repository are embedded as Rocq functions:
    - [cmd/proxy-to-grafana/proxy-to-grafana.go]: [main], the redirect
      goroutine it starts, [modifyRequest] and [getTailscaleUser];
    - package [logknob]: [LogKnob] with [Set], [UpdateFromNetMap] and
      [shouldLog].

    Calls that leave the program (the Tailscale local client, the tsnet
    listener, the HTTP server, the logger) are answered by a [World] of
    oracles and leave an [Event] in the trace of the thread that makes
    them, so that "how many polls before the listener" is a property of a
    list. [log.Fatal] ends a thread (and the process) with [Fatal]. *)

From stdpp Require Import base strings gmap list.

Local Open Scope string_scope.
Local Open Scope list_scope.
Local Open Scope stdpp_scope.
Local Open Scope nat_scope.

(** ** Go values used by the program *)

(** [error] values as the program builds them: [errors.New]/[fmt.Errorf]
    without [%w] give a plain message, [fmt.Errorf] with [%w] wraps. *)
Inductive error : Type :=
| errorString (s : string)
| wrapError (msg : string) (err : error).

Definition Error (e : error) : string :=
  match e with
  | errorString s => s
  | wrapError msg _ => msg
  end.

Definition Unwrap (e : error) : option error :=
  match e with
  | errorString _ => None
  | wrapError _ err => Some err
  end.

(** [fmt.Errorf(prefix + "%w", err)] *)
Definition fmt_Errorf_w (prefix : string) (err : error) : error :=
  wrapError (prefix +:+ Error err) err.

(** [strings.HasPrefix]: [s] begins with [prefix]. *)
Fixpoint strings_HasPrefix (s prefix : string) {struct prefix} : bool :=
  match prefix with
  | EmptyString => true
  | String a prefix' =>
      match s with
      | EmptyString => false
      | String b s' => Ascii.eqb a b && strings_HasPrefix s' prefix'
      end
  end.

(** [strings.Contains]: [substr] occurs somewhere in [s]. *)
Fixpoint strings_Contains (s substr : string) : bool :=
  strings_HasPrefix s substr ||
  match s with
  | EmptyString => false
  | String _ s' => strings_Contains s' substr
  end.

(** [tailcfg.UserProfile], the fields the proxy reads. *)
Record UserProfile : Type := mkUserProfile {
  LoginName : string;
  DisplayName : string
}.

(** [tailcfg.Node], the field the proxy reads. *)
Record Node : Type := mkNode {
  Tags : list string
}.

(** Modelled from the spec: the reply of the identity service,
    [WhoIs(peerAddress) -> {userProfile: {loginName, displayName} | nil,
    tags: []string}]; the declaration of [apitype.WhoIsResponse] is not
    among the sources. The node is always there, the profile may be nil. *)
Record WhoIsResponse : Type := mkWhoIsResponse {
  WhoIs_Node : Node;
  WhoIs_UserProfile : option UserProfile
}.

(** [ipnstate.Status], the field the proxy reads. *)
Record Status : Type := mkStatus {
  BackendState : string
}.

(** A [net.Listener]: the address it is bound to, and whether
    [tls.NewListener] wraps it. *)
Record Listener : Type := mkListener {
  Addr : string;
  overTLS : bool
}.

Definition tls_NewListener (ln : Listener) : Listener :=
  {| Addr := Addr ln; overTLS := true |}.

(** [*http.Request], the fields the proxy reads or writes. [Header] is
    Go's [map[string][]string]. *)
Record Request : Type := mkRequest {
  URL_Path : string;
  RemoteAddr : string;
  Header : gmap string (list string)
}.

(** [http.Header.Set]: the values under [key] are replaced by the single
    [value]. Both keys the proxy sets are already in canonical MIME form,
    so the canonicalisation of [key] is the identity on them. *)
Definition Header_Set (key value : string)
    (h : gmap string (list string)) : gmap string (list string) :=
  <[key := [value]]> h.

(** [http.Header.Get]: the first value under [key], or the empty string. *)
Definition Header_Get (key : string) (h : gmap string (list string)) : string :=
  match h !! key with
  | Some (v :: _) => v
  | _ => ""
  end.

(** [http.Header.Values]: all values under [key]. *)
Definition Header_Values (key : string) (h : gmap string (list string)) : list string :=
  default [] (h !! key).

Definition set_Header (req : Request) (h : gmap string (list string)) : Request :=
  {| URL_Path := URL_Path req; RemoteAddr := RemoteAddr req; Header := h |}.

Definition http_StatusMovedPermanently : Z := 301%Z.

(** What a handler does to its [http.ResponseWriter]: the one call the
    program makes is [http.Redirect(w, r, url, code)]. *)
Record Response : Type := mkResponse {
  redirect_url : string;
  redirect_code : Z
}.

Definition http_Redirect (r : Request) (url : string) (code : Z) : Response :=
  {| redirect_url := url; redirect_code := code |}.

(** The two handlers the program serves: the reverse proxy towards the
    parsed backend URL, and the closure of the goroutine that redirects
    to [name]. *)
Inductive Handler : Type :=
| proxyHandler (backendURL : string)
| redirectHandler (name : string).

(** ** Threads, events and the world *)

Inductive Event : Type :=
| EvWhoIs (ipPort : string)            (* tailscale.WhoIs *)
| EvLog (line : string)                (* log.Printf *)
| EvStatus                             (* tailscale.Status *)
| EvSleep                              (* time.Sleep(time.Second) *)
| EvListen (addr : string) (opened : bool)   (* ts.Listen("tcp", addr) *)
| EvExpandSNIName (host : string)      (* tailscale.ExpandSNIName *)
| EvGo                                 (* go func() { ... }() *)
| EvServe (ln : Listener) (h : Handler).     (* http.Serve *)

Global Instance Listener_eq_dec : EqDecision Listener.
Proof. solve_decision. Defined.
Global Instance Handler_eq_dec : EqDecision Handler.
Proof. solve_decision. Defined.
Global Instance Event_eq_dec : EqDecision Event.
Proof. solve_decision. Defined.

(** How a thread ends: it returns [a], it dies in [log.Fatal] (which
    ends the process), or it stays in [http.Serve] for good. *)
Inductive Result (A : Type) : Type :=
| Done (a : A)
| Fatal (line : string)
| Serving.
Arguments Done {A} a.
Arguments Fatal {A} line.
Arguments Serving {A}.

(** A thread: the events it made, in order, and how it ended. *)
Definition Proc (A : Type) : Type := (list Event * Result A)%type.

Definition trace {A} (p : Proc A) : list Event := p.1.
Definition result {A} (p : Proc A) : Result A := p.2.

Global Instance Proc_ret : MRet Proc := λ A a, ([], Done a).
Global Instance Proc_bind : MBind Proc := λ A B f p,
  match p.2 with
  | Done a => let q := f a in (p.1 ++ q.1, q.2)
  | Fatal line => (p.1, Fatal line)
  | Serving => (p.1, Serving)
  end.

Definition emit (e : Event) : Proc unit := ([e], Done tt).
Definition log_Printf (line : string) : Proc unit := emit (EvLog line).
Definition log_Fatal {A} (line : string) : Proc A := ([], Fatal line).
Definition time_Sleep : Proc unit := emit EvSleep.

(** The answers of everything outside the program. [Status_reply i] is
    the answer to the [i]-th status query (from 0). *)
Record World : Type := mkWorld {
  WhoIs_reply : string → WhoIsResponse + error;
  Status_reply : nat → Status + error;
  ExpandSNIName_reply : string → string * bool;
  Listen_reply : string → option error;
  Serve_reply : Listener → option error;
  url_Parse_reply : string → string + error
}.

Section Program.

Context (world : World).

Definition tailscale_WhoIs (ipPort : string) : Proc (WhoIsResponse + error) :=
  emit (EvWhoIs ipPort);; mret (WhoIs_reply world ipPort).

Definition tailscale_Status (i : nat) : Proc (Status + error) :=
  emit EvStatus;; mret (Status_reply world i).

Definition tailscale_ExpandSNIName (host : string) : Proc (string * bool) :=
  emit (EvExpandSNIName host);; mret (ExpandSNIName_reply world host).

(** [ts.Listen("tcp", addr)]: a listener bound to [addr], or an error. *)
Definition ts_Listen (addr : string) : Proc (Listener + error) :=
  match Listen_reply world addr with
  | None => emit (EvListen addr true);; mret (inl {| Addr := addr; overTLS := false |})
  | Some err => emit (EvListen addr false);; mret (inr err)
  end.

(** [http.Serve(ln, h)] serves for good, or returns an error. *)
Definition http_Serve (ln : Listener) (h : Handler) : Proc error :=
  emit (EvServe ln h);;
  match Serve_reply world ln with
  | None => ([], Serving)
  | Some err => mret err
  end.

(** ** The identity resolver and the header injector *)

Definition getTailscaleUser (ipPort : string) : Proc (UserProfile + error) :=
  r ← tailscale_WhoIs ipPort;
  match r with
  | inr err => mret (inr (fmt_Errorf_w "failed to identify remote host: " err))
  | inl whois =>
      if decide (length (Tags (WhoIs_Node whois)) ≠ 0)
      then mret (inr (errorString "tagged nodes are not users"))
      else match WhoIs_UserProfile whois with
           | None => mret (inr (errorString "failed to identify remote user"))
           | Some profile =>
               if decide (LoginName profile = "")
               then mret (inr (errorString "failed to identify remote user"))
               else mret (inl profile)
           end
  end.

Definition modifyRequest (req : Request) : Proc Request :=
  if decide (URL_Path req ≠ "/login") then mret req
  else
    r ← getTailscaleUser (RemoteAddr req);
    match r with
    | inr err =>
        log_Printf ("error getting Tailscale user: " +:+ Error err);;
        mret req
    | inl user =>
        let req1 := set_Header req (Header_Set "X-Webauth-User" (LoginName user) (Header req)) in
        let req2 := set_Header req1 (Header_Set "X-Webauth-Name" (DisplayName user) (Header req1)) in
        mret req2
    end.

(** The hook of the reverse proxy: [originalDirector] is the director
    that [httputil.NewSingleHostReverseProxy] built for the backend URL. *)
Definition Director (originalDirector : Request → Request) (req : Request) : Proc Request :=
  modifyRequest (originalDirector req).

(** ** Startup *)

(** The closure served on the plaintext port when HTTPS is on. *)
Definition redirectFunc (name : string) (r : Request) : Response :=
  http_Redirect r ("https://" +:+ name) http_StatusMovedPermanently.

(** The loop [for i := 0; i < 60; i++] of the goroutine, entered at [i]
    with [remaining = 60 - i] turns left. *)
Fixpoint waitRunning (remaining i : nat) : Proc unit :=
  match remaining with
  | 0 => mret tt
  | S remaining' =>
      r ← tailscale_Status i;
      match r with
      | inr err => log_Fatal (Error err)
      | inl st =>
          log_Printf ("tailscale status: " +:+ BackendState st);;
          if decide (BackendState st = "Running") then mret tt
          else time_Sleep;; waitRunning remaining' (S i)
      end
  end.

(** The goroutine that [main] starts when HTTPS is on. *)
Definition redirectTask (hostname : string) : Proc unit :=
  waitRunning 60 0;;
  r ← ts_Listen ":80";
  match r with
  | inr err => log_Fatal (Error err)
  | inl l80 =>
      r ← tailscale_ExpandSNIName hostname;
      if negb r.2 then log_Fatal "can't get hostname for https redirect"
      else
        err ← http_Serve l80 (redirectHandler r.1);
        log_Fatal (Error err)
  end.

(** The command line, after [flag.Parse]. *)
Record Flags : Type := mkFlags {
  hostname : string;
  backendAddr : string;
  tailscaleDir : string;
  useHTTPS : bool
}.

(** The main thread. [EvGo] marks the start of [redirectTask]. *)
Definition main (f : Flags) : Proc unit :=
  if bool_decide (hostname f = "") || strings_Contains (hostname f) "."
  then log_Fatal "missing or invalid --hostname"
  else if decide (backendAddr f = "")
  then log_Fatal "missing --backend-addr"
  else
    match url_Parse_reply world ("http://" +:+ backendAddr f) with
    | inr err => log_Fatal ("couldn't parse backend address: " +:+ Error err)
    | inl url =>
        let proxy := proxyHandler url in
        r ← (if useHTTPS f
             then
               r ← ts_Listen ":443";
               let r := match r with
                        | inl ln => inl (tls_NewListener ln)
                        | inr err => inr err
                        end in
               emit EvGo;;
               mret r
             else ts_Listen ":80");
        match r with
        | inr err => log_Fatal (Error err)
        | inl ln =>
            log_Printf ("proxy-to-grafana running at " +:+ Addr ln +:+
                        ", proxying to " +:+ backendAddr f);;
            err ← http_Serve ln proxy;
            log_Fatal (Error err)
        end
    end.

(** The threads of a run, each with all it does if nothing ends the
    process first: the main thread, and the goroutine if it was started. *)
Definition threads (f : Flags) : list (Proc unit) :=
  main f :: if bool_decide (EvGo ∈ trace (main f)) then [redirectTask (hostname f)] else [].

End Program.

(** ** Reading traces *)

Definition isStatus (e : Event) : bool :=
  match e with EvStatus => true | _ => false end.

Definition isSleep (e : Event) : bool :=
  match e with EvSleep => true | _ => false end.

Definition isListen (e : Event) : bool :=
  match e with EvListen _ _ => true | _ => false end.

Definition isFatal {A} (r : Result A) : bool :=
  match r with Fatal _ => true | _ => false end.

(** Number of status queries in a trace. *)
Definition polls (t : list Event) : nat := length (List.filter isStatus t).

(** The events before the first call of [ts.Listen], when there is one. *)
Fixpoint beforeListen (t : list Event) : option (list Event) :=
  match t with
  | [] => None
  | e :: t' => if isListen e then Some [] else cons e <$> beforeListen t'
  end.

(** The first call of [ts.Listen] in a trace, when there is one. *)
Fixpoint firstListen (t : list Event) : option Event :=
  match t with
  | [] => None
  | e :: t' => if isListen e then Some e else firstListen t'
  end.

(** ** Package logknob *)

Module logknob.

(** [NetMap] is the interface with the one method [SelfCapabilities]. *)
Class NetMap (T : Type) : Type := SelfCapabilities : T → list string.

Section LogKnob.

(** The process environment that an envknob reads, and
    [envknob.RegisterBool], which gives the reader of one variable; the
    envknob package is not among the sources. *)
Context {Environ : Type} (envknob_RegisterBool : string → Environ → bool).

Record LogKnob : Type := mkLogKnob {
  capName : string;
  cap : bool;
  env : Environ → bool;
  manual : bool
}.

(** [None] is the panic on two empty names. *)
Definition NewLogKnob (env cap : string) : option LogKnob :=
  if bool_decide (env = "") && bool_decide (cap = "") then None
  else
    Some {| capName := cap;
            cap := false;
            env := if decide (env ≠ "") then envknob_RegisterBool env else λ _, false;
            manual := false |}.

Definition Set_ (v : bool) (l : LogKnob) : LogKnob :=
  {| capName := capName l; cap := cap l; env := env l; manual := v |}.

Definition cap_Store (v : bool) (l : LogKnob) : LogKnob :=
  {| capName := capName l; cap := v; env := env l; manual := manual l |}.

(** The loop of [UpdateFromNetMap] over the capabilities. *)
Fixpoint updateFromCaps (caps : list string) (l : LogKnob) : LogKnob :=
  match caps with
  | [] => cap_Store false l
  | c :: caps' =>
      if decide (c = capName l) then cap_Store true l
      else updateFromCaps caps' l
  end.

Definition UpdateFromNetMap `{NetMap T} (nm : T) (l : LogKnob) : LogKnob :=
  if decide (capName l = "") then l
  else updateFromCaps (SelfCapabilities nm) l.

(** [l.manual.Load() || l.env() || l.cap.Load()] in the environment [e]. *)
Definition shouldLog (l : LogKnob) (e : Environ) : bool :=
  manual l || env l e || cap l.

(** [Do]: the lines handed to [log], given the formatted line. *)
Definition Do (l : LogKnob) (e : Environ) (line : string) : list string :=
  if shouldLog l e then [line] else [].

End LogKnob.

End logknob.

(** * Properties *)

(** ** Sample worlds and requests *)

Definition ann : UserProfile :=
  {| LoginName := "a@b.com"; DisplayName := "Ann" |}.

(** A world in which every peer is the user [ann], the overlay network is
    running from the third status query on, and nothing fails. *)
Definition calmWorld : World :=
  {| WhoIs_reply := λ _, inl {| WhoIs_Node := {| Tags := [] |};
                                WhoIs_UserProfile := Some ann |};
     Status_reply := λ i, inl {| BackendState := if decide (i < 2) then "Starting" else "Running" |};
     ExpandSNIName_reply := λ host, (host +:+ ".example.ts.net", true);
     Listen_reply := λ _, None;
     Serve_reply := λ _, None;
     url_Parse_reply := λ s, inl s |}.

(** As [calmWorld], with another identity service. *)
Definition withWhoIs (reply : string → WhoIsResponse + error) : World :=
  {| WhoIs_reply := reply;
     Status_reply := Status_reply calmWorld;
     ExpandSNIName_reply := ExpandSNIName_reply calmWorld;
     Listen_reply := Listen_reply calmWorld;
     Serve_reply := Serve_reply calmWorld;
     url_Parse_reply := url_Parse_reply calmWorld |}.

(** As [calmWorld], with another sequence of status replies. *)
Definition withStatus (reply : nat → Status + error) : World :=
  {| WhoIs_reply := WhoIs_reply calmWorld;
     Status_reply := reply;
     ExpandSNIName_reply := ExpandSNIName_reply calmWorld;
     Listen_reply := Listen_reply calmWorld;
     Serve_reply := Serve_reply calmWorld;
     url_Parse_reply := url_Parse_reply calmWorld |}.

(** A login request that already carries the two headers, one of them
    twice. *)
Definition spoofedLogin : Request :=
  {| URL_Path := "/login";
     RemoteAddr := "100.64.0.7:51234";
     Header := {[ "X-Webauth-User" := ["root"; "admin"];
                  "X-Webauth-Name" := ["Mallory"];
                  "Accept" := ["text/html"] ]} |}.

Definition spoofedDashboard : Request :=
  {| URL_Path := "/dashboard";
     RemoteAddr := RemoteAddr spoofedLogin;
     Header := Header spoofedLogin |}.

(** ** The monad *)

Lemma bind_Done {A B} (p : Proc A) (f : A → Proc B) a :
  result p = Done a → p ≫= f = (trace p ++ trace (f a), result (f a)).
Proof.
  destruct p as [t r]. unfold result, trace, mbind, Proc_bind. simpl.
  intros ->. reflexivity.
Qed.

Lemma bind_Fatal {A B} (p : Proc A) (f : A → Proc B) line :
  result p = Fatal line → p ≫= f = (trace p, Fatal line).
Proof.
  destruct p as [t r]. unfold result, trace, mbind, Proc_bind. simpl.
  intros ->. reflexivity.
Qed.

(** ** The identity resolver *)

(** The three failures of the resolver, in the spec's words. *)
Inductive FailureClass : Type :=
| LookupFailed
| TaggedPrincipal
| UnidentifiedUser.

Definition lookupFailed (reply : WhoIsResponse + error) : Prop :=
  ∃ err, reply = inr err.

Definition taggedPrincipal (reply : WhoIsResponse + error) : Prop :=
  ∃ whois, reply = inl whois ∧ Tags (WhoIs_Node whois) ≠ [].

Definition unidentifiedUser (reply : WhoIsResponse + error) : Prop :=
  ∃ whois, reply = inl whois ∧
    (WhoIs_UserProfile whois = None ∨
     ∃ profile, WhoIs_UserProfile whois = Some profile ∧ LoginName profile = "").

(** The class of a failure, read off the error alone. *)
Definition failureClass (e : error) : option FailureClass :=
  if strings_HasPrefix (Error e) "failed to identify remote host: " then Some LookupFailed
  else if decide (Error e = "tagged nodes are not users") then Some TaggedPrincipal
  else if decide (Error e = "failed to identify remote user") then Some UnidentifiedUser
  else None.

Lemma getTailscaleUser_trace world ipPort :
  trace (getTailscaleUser world ipPort) = [EvWhoIs ipPort].
Proof.
  unfold getTailscaleUser, tailscale_WhoIs.
  destruct (WhoIs_reply world ipPort) as [whois|err]; [|reflexivity].
  cbn. destruct (decide _); [reflexivity|].
  destruct (WhoIs_UserProfile whois) as [profile|]; [|reflexivity].
  destruct (decide _); reflexivity.
Qed.

(** The result of the resolver, case by case of the reply. *)
Lemma getTailscaleUser_result world ipPort :
  result (getTailscaleUser world ipPort) =
  Done match WhoIs_reply world ipPort with
       | inr err => inr (fmt_Errorf_w "failed to identify remote host: " err)
       | inl whois =>
           match Tags (WhoIs_Node whois), WhoIs_UserProfile whois with
           | _ :: _, _ => inr (errorString "tagged nodes are not users")
           | [], None => inr (errorString "failed to identify remote user")
           | [], Some profile =>
               if decide (LoginName profile = "")
               then inr (errorString "failed to identify remote user")
               else inl profile
           end
       end.
Proof.
  unfold getTailscaleUser, tailscale_WhoIs.
  destruct (WhoIs_reply world ipPort) as [[[tags] profile]|err]; [|reflexivity].
  cbn. destruct tags as [|tag tags]; cbn.
  - destruct (decide (0 ≠ 0)) as [?|_]; [done|].
    destruct profile as [profile|]; [|reflexivity].
    destruct (decide _); reflexivity.
  - destruct (decide (S (length tags) ≠ 0)) as [_|?]; [reflexivity|lia].
Qed.

Lemma getTailscaleUser_success world ipPort user :
  result (getTailscaleUser world ipPort) = Done (inl user) ↔
  ∃ whois, WhoIs_reply world ipPort = inl whois ∧
           Tags (WhoIs_Node whois) = [] ∧
           WhoIs_UserProfile whois = Some user ∧
           LoginName user ≠ "".
Proof.
  rewrite getTailscaleUser_result.
  destruct (WhoIs_reply world ipPort) as [[[tags] profile]|err]; cbn.
  - destruct tags as [|tag tags]; [destruct profile as [profile|]|].
    + destruct (decide (LoginName profile = "")) as [Hl|Hl]; split.
      * intros [=].
      * intros (whois & [= <-] & _ & [= ->] & Hne). done.
      * intros [= ->]. eexists. repeat split; done.
      * intros (whois & [= <-] & _ & [= ->] & _). done.
    + split; [intros [=]|]. intros (whois & [= <-] & _ & [=] & _).
    + split; [intros [=]|]. intros (whois & [= <-] & [=] & _).
  - split; [intros [=]|]. intros (whois & [=] & _).
Qed.

Lemma failureClass_lookup err :
  failureClass (fmt_Errorf_w "failed to identify remote host: " err) = Some LookupFailed.
Proof. reflexivity. Qed.

(** C6: the resolver asks the identity service once and returns; it
    returns an error exactly when the lookup failed, or the node carries a
    tag, or the profile is missing or has an empty login name; the class
    of the failure can be read off the error, a tag is reported before a
    missing profile, and a returned profile never belongs to a tagged
    node. *)
Theorem C6_resolver_failure_classes (world : World) (ipPort : string) :
  trace (getTailscaleUser world ipPort) = [EvWhoIs ipPort] ∧
  (∃ r, result (getTailscaleUser world ipPort) = Done r) ∧
  ((∃ e, result (getTailscaleUser world ipPort) = Done (inr e)) ↔
   lookupFailed (WhoIs_reply world ipPort) ∨
   taggedPrincipal (WhoIs_reply world ipPort) ∨
   unidentifiedUser (WhoIs_reply world ipPort)) ∧
  (∀ e, result (getTailscaleUser world ipPort) = Done (inr e) →
     (lookupFailed (WhoIs_reply world ipPort) →
        failureClass e = Some LookupFailed ∧
        ∃ err, WhoIs_reply world ipPort = inr err ∧ Unwrap e = Some err) ∧
     (taggedPrincipal (WhoIs_reply world ipPort) →
        failureClass e = Some TaggedPrincipal ∧
        Error e = "tagged nodes are not users") ∧
     (¬ lookupFailed (WhoIs_reply world ipPort) →
      ¬ taggedPrincipal (WhoIs_reply world ipPort) →
        failureClass e = Some UnidentifiedUser ∧
        Error e = "failed to identify remote user")) ∧
  (∀ user, result (getTailscaleUser world ipPort) = Done (inl user) →
     ¬ taggedPrincipal (WhoIs_reply world ipPort) ∧
     LoginName user ≠ "" ∧
     ∃ whois, WhoIs_reply world ipPort = inl whois ∧
              WhoIs_UserProfile whois = Some user).
Proof.
  split; [apply getTailscaleUser_trace|].
  rewrite getTailscaleUser_result.
  unfold lookupFailed, taggedPrincipal, unidentifiedUser.
  destruct (WhoIs_reply world ipPort) as [[[tags] profile]|err]; cbn.
  - destruct tags as [|tag tags]; [destruct profile as [profile|]|].
    + destruct (decide (LoginName profile = "")) as [Hl|Hl].
      * split; [eauto|]. split.
        { split; [|eauto]. intros _. right. right. eexists. split; [done|]. cbn. eauto. }
        split.
        { intros e [= <-]. split; [intros [? [=]]|].
          split; [intros (? & [= <-] & ?); done|]. done. }
        intros user [=].
      * split; [eauto|]. split.
        { split; [intros [? [=]]|].
          intros [[? [=]]|[(? & [= <-] & ?)|(? & [= <-] & [[=]|(? & [= <-] & ?)])]]; done. }
        split; [intros e [=]|].
        intros user [= <-]. split; [intros (? & [= <-] & ?); done|]. split; [done|].
        eexists; split; done.
    + split; [eauto|]. split.
      { split; [|eauto]. intros _. right. right. eexists. split; [done|]. cbn. eauto. }
      split.
      { intros e [= <-]. split; [intros [? [=]]|].
        split; [intros (? & [= <-] & ?); done|]. done. }
      intros user [=].
    + split; [eauto|]. split.
      { split; [|eauto]. intros _. right. left. eexists. split; done. }
      split.
      { intros e [= <-]. split; [intros [? [=]]|].
        split; [done|]. intros _ Hnot. exfalso. apply Hnot. eexists. split; done. }
      intros user [=].
  - split; [eauto|]. split.
    { split; [|eauto]. intros _. left. eauto. }
    split.
    { intros e [= <-]. split; [intros _; split; [reflexivity|eauto]|].
      split; [intros (? & [=] & _)|]. intros Hnot. exfalso. apply Hnot. eauto. }
    intros user [=].
Qed.

(** ** The header injector *)

Lemma modifyRequest_other_path world req :
  URL_Path req ≠ "/login" → modifyRequest world req = ([], Done req).
Proof.
  intros Hp. unfold modifyRequest. destruct (decide _); [reflexivity|done].
Qed.

Lemma modifyRequest_login world req :
  URL_Path req = "/login" →
  modifyRequest world req =
  match result (getTailscaleUser world (RemoteAddr req)) with
  | Done (inl user) =>
      ([EvWhoIs (RemoteAddr req)],
       Done (set_Header req
               (Header_Set "X-Webauth-Name" (DisplayName user)
                  (Header_Set "X-Webauth-User" (LoginName user) (Header req)))))
  | Done (inr err) =>
      ([EvWhoIs (RemoteAddr req); EvLog ("error getting Tailscale user: " +:+ Error err)],
       Done req)
  | Fatal line => ([EvWhoIs (RemoteAddr req)], Fatal line)
  | Serving => ([EvWhoIs (RemoteAddr req)], Serving)
  end.
Proof.
  intros Hp. unfold modifyRequest. destruct (decide _) as [|_]; [done|].
  pose proof (getTailscaleUser_trace world (RemoteAddr req)) as Ht.
  destruct (getTailscaleUser world (RemoteAddr req)) as [t [[user|err]| |]];
    unfold trace in Ht; cbn in Ht; subst t; reflexivity.
Qed.

(** C4: off the login path the injector returns the request as it came,
    whatever the identity service would answer, and does not ask it. *)
Theorem C4_other_paths_untouched (world : World) (req : Request) :
  URL_Path req ≠ "/login" →
  result (modifyRequest world req) = Done req ∧
  trace (modifyRequest world req) = [] ∧
  ∀ req', result (modifyRequest world req) = Done req' →
          ∀ key, Header req' !! key = Header req !! key.
Proof.
  intros Hp. rewrite modifyRequest_other_path by done.
  split; [done|]. split; [done|]. by intros req' [= <-].
Qed.

Lemma C4_witness :
  result (modifyRequest calmWorld spoofedDashboard) = Done spoofedDashboard ∧
  trace (modifyRequest calmWorld spoofedDashboard) = [] ∧
  ∀ req', result (modifyRequest calmWorld spoofedDashboard) = Done req' →
          ∀ key, Header req' !! key = Header spoofedDashboard !! key.
Proof.
  apply (C4_other_paths_untouched calmWorld spoofedDashboard).
  discriminate.
Defined.

(** C3: on the login path, when the identity service names a node
    without tags and a profile with a login name, the injector returns
    the request with exactly that login name under X-Webauth-User and
    exactly that display name under X-Webauth-Name, whatever was there
    before, and with everything else as it came. *)
Theorem C3_login_headers_set (world : World) (req : Request)
    (whois : WhoIsResponse) (user : UserProfile) :
  URL_Path req = "/login" →
  WhoIs_reply world (RemoteAddr req) = inl whois →
  Tags (WhoIs_Node whois) = [] →
  WhoIs_UserProfile whois = Some user →
  LoginName user ≠ "" →
  ∃ req', result (modifyRequest world req) = Done req' ∧
    Header req' !! "X-Webauth-User" = Some [LoginName user] ∧
    Header req' !! "X-Webauth-Name" = Some [DisplayName user] ∧
    Header_Get "X-Webauth-User" (Header req') = LoginName user ∧
    Header_Get "X-Webauth-Name" (Header req') = DisplayName user ∧
    (∀ key, key ≠ "X-Webauth-User" → key ≠ "X-Webauth-Name" →
            Header req' !! key = Header req !! key) ∧
    URL_Path req' = URL_Path req ∧ RemoteAddr req' = RemoteAddr req.
Proof.
  intros Hp Hr Ht Hu Hl.
  assert (result (getTailscaleUser world (RemoteAddr req)) = Done (inl user)) as Hres.
  { apply getTailscaleUser_success. eauto 6. }
  rewrite modifyRequest_login, Hres by done.
  eexists. split; [reflexivity|]. unfold Header_Get, Header_Set. cbn.
  rewrite lookup_insert_eq.
  rewrite lookup_insert_ne by discriminate. rewrite lookup_insert_eq.
  repeat split; try done.
  intros key Hk1 Hk2. by rewrite !lookup_insert_ne.
Qed.

Lemma C3_witness :
  ∃ req', result (modifyRequest calmWorld spoofedLogin) = Done req' ∧
    Header req' !! "X-Webauth-User" = Some ["a@b.com"] ∧
    Header req' !! "X-Webauth-Name" = Some ["Ann"] ∧
    Header_Get "X-Webauth-User" (Header req') = "a@b.com" ∧
    Header_Get "X-Webauth-Name" (Header req') = "Ann" ∧
    (∀ key, key ≠ "X-Webauth-User" → key ≠ "X-Webauth-Name" →
            Header req' !! key = Header spoofedLogin !! key) ∧
    URL_Path req' = "/login" ∧ RemoteAddr req' = "100.64.0.7:51234".
Proof.
  apply (C3_login_headers_set calmWorld spoofedLogin
           {| WhoIs_Node := {| Tags := [] |}; WhoIs_UserProfile := Some ann |} ann);
    [reflexivity | reflexivity | reflexivity | reflexivity | discriminate].
Defined.

Lemma getTailscaleUser_failure world ipPort :
  lookupFailed (WhoIs_reply world ipPort) ∨
  taggedPrincipal (WhoIs_reply world ipPort) ∨
  unidentifiedUser (WhoIs_reply world ipPort) →
  ∃ e, result (getTailscaleUser world ipPort) = Done (inr e).
Proof.
  rewrite getTailscaleUser_result.
  unfold lookupFailed, taggedPrincipal, unidentifiedUser.
  destruct (WhoIs_reply world ipPort) as [[[tags] profile]|err]; cbn; [|eauto].
  destruct tags as [|tag tags]; [|eauto].
  destruct profile as [profile|]; [|eauto].
  destruct (decide (LoginName profile = "")) as [Hl|Hl]; [eauto|].
  intros [[? [=]]|[(? & [= <-] & ?)|(? & [= <-] & [[=]|(? & [= <-] & ?)])]]; done.
Qed.

(** C5: on the login path, when the lookup fails, or the node carries a
    tag, or the profile is missing or has an empty login name, the
    injector logs the error and returns the request as it came, so the
    director hands the proxy the request without the two headers touched. *)
Theorem C5_failed_resolution_untouched (world : World) (req : Request) :
  URL_Path req = "/login" →
  lookupFailed (WhoIs_reply world (RemoteAddr req)) ∨
  taggedPrincipal (WhoIs_reply world (RemoteAddr req)) ∨
  unidentifiedUser (WhoIs_reply world (RemoteAddr req)) →
  result (modifyRequest world req) = Done req ∧
  (∃ err, result (getTailscaleUser world (RemoteAddr req)) = Done (inr err) ∧
          trace (modifyRequest world req) =
          [EvWhoIs (RemoteAddr req);
           EvLog ("error getting Tailscale user: " +:+ Error err)]) ∧
  (∀ originalDirector req0,
     originalDirector req0 = req →
     result (Director world originalDirector req0) = Done req).
Proof.
  intros Hp Hfail.
  destruct (getTailscaleUser_failure _ _ Hfail) as [err Herr].
  assert (modifyRequest world req =
          ([EvWhoIs (RemoteAddr req);
            EvLog ("error getting Tailscale user: " +:+ Error err)], Done req)) as Hm.
  { rewrite modifyRequest_login, Herr by done. reflexivity. }
  split; [by rewrite Hm|]. split; [exists err; by rewrite Hm|].
  intros od req0 <-. unfold Director. by rewrite Hm.
Qed.

(** An identity service that knows the peer as a tagged node. *)
Definition taggedWorld : World :=
  withWhoIs (λ _, inl {| WhoIs_Node := {| Tags := ["tag:server"] |};
                         WhoIs_UserProfile := Some ann |}).

Lemma C5_witness :
  result (modifyRequest taggedWorld spoofedLogin) = Done spoofedLogin ∧
  (∃ err, result (getTailscaleUser taggedWorld (RemoteAddr spoofedLogin)) = Done (inr err) ∧
          trace (modifyRequest taggedWorld spoofedLogin) =
          [EvWhoIs (RemoteAddr spoofedLogin);
           EvLog ("error getting Tailscale user: " +:+ Error err)]) ∧
  (∀ originalDirector req0,
     originalDirector req0 = spoofedLogin →
     result (Director taggedWorld originalDirector req0) = Done spoofedLogin).
Proof.
  apply (C5_failed_resolution_untouched taggedWorld spoofedLogin); [reflexivity|].
  right; left. eexists. split; [reflexivity|discriminate].
Defined.

Lemma Header_Set_twice (login name : string) (h : gmap string (list string)) :
  Header_Set "X-Webauth-Name" name
    (Header_Set "X-Webauth-User" login
       (Header_Set "X-Webauth-Name" name (Header_Set "X-Webauth-User" login h))) =
  Header_Set "X-Webauth-Name" name (Header_Set "X-Webauth-User" login h).
Proof.
  unfold Header_Set. apply map_eq. intros key.
  destruct (decide (key = "X-Webauth-Name")) as [->|Hn].
  - by rewrite !lookup_insert_eq.
  - rewrite !(lookup_insert_ne _ "X-Webauth-Name") by done.
    destruct (decide (key = "X-Webauth-User")) as [->|Hu].
    + by rewrite !lookup_insert_eq.
    + by rewrite !lookup_insert_ne.
Qed.

(** C7: on the login path, injecting into an injected request, with the
    peer resolved as before, returns that request again: each of the two
    headers holds the one value the first injection put there. *)
Theorem C7_injection_idempotent (world1 world2 : World) (req : Request) :
  URL_Path req = "/login" →
  result (getTailscaleUser world1 (RemoteAddr req)) =
  result (getTailscaleUser world2 (RemoteAddr req)) →
  ∃ req1, result (modifyRequest world1 req) = Done req1 ∧
          result (modifyRequest world2 req1) = Done req1 ∧
          ∀ user, result (getTailscaleUser world1 (RemoteAddr req)) = Done (inl user) →
                  Header_Values "X-Webauth-User" (Header req1) = [LoginName user] ∧
                  Header_Values "X-Webauth-Name" (Header req1) = [DisplayName user].
Proof.
  intros Hp Hsame.
  rewrite modifyRequest_login by done.
  pose proof (getTailscaleUser_result world1 (RemoteAddr req)) as H1.
  destruct (result (getTailscaleUser world1 (RemoteAddr req))) as [[user|err]| |] eqn:Hres;
    [| |discriminate|discriminate]; clear H1.
  - eexists. split; [reflexivity|].
    rewrite modifyRequest_login by done. cbn [RemoteAddr set_Header Header].
    rewrite <- Hsame. cbn.
    split.
    + unfold set_Header. cbn. by rewrite Header_Set_twice.
    + intros ? [= <-]. unfold Header_Values, Header_Set.
      rewrite lookup_insert_eq.
      rewrite lookup_insert_ne by discriminate. by rewrite lookup_insert_eq.
  - exists req. split; [reflexivity|].
    rewrite modifyRequest_login, <- Hsame by done.
    split; [reflexivity|]. intros ? [=].
Qed.

Lemma C7_witness :
  ∃ req1, result (modifyRequest calmWorld spoofedLogin) = Done req1 ∧
          result (modifyRequest (withWhoIs (WhoIs_reply calmWorld)) req1) = Done req1 ∧
          ∀ user, result (getTailscaleUser calmWorld (RemoteAddr spoofedLogin)) = Done (inl user) →
                  Header_Values "X-Webauth-User" (Header req1) = [LoginName user] ∧
                  Header_Values "X-Webauth-Name" (Header req1) = [DisplayName user].
Proof.
  apply (C7_injection_idempotent calmWorld (withWhoIs (WhoIs_reply calmWorld)) spoofedLogin);
    reflexivity.
Defined.

(** ** Validation of the command line *)

Lemma strings_HasPrefix_spec (s prefix : string) :
  strings_HasPrefix s prefix = true ↔ ∃ rest, s = prefix +:+ rest.
Proof.
  revert s. induction prefix as [|a prefix IH]; intros s; cbn.
  - split; [eauto|done].
  - destruct s as [|b s].
    + split; [done|]. intros [rest [=]].
    + rewrite andb_true_iff, Ascii.eqb_eq, IH. split.
      * intros [-> [rest ->]]. eauto.
      * intros [rest [= -> ->]]. eauto.
Qed.

Lemma strings_Contains_spec (s substr : string) :
  strings_Contains s substr = true ↔ ∃ a b, s = a +:+ substr +:+ b.
Proof.
  induction s as [|c s IH]; cbn; rewrite orb_true_iff, strings_HasPrefix_spec.
  - split.
    + intros [[rest Hrest]|[=]]. by exists "", rest.
    + intros (a & b & Hab). left. destruct a; [by exists b|discriminate].
  - rewrite IH. split.
    + intros [[rest Hrest]|(a & b & ->)]; [by exists "", rest|].
      by exists (String c a), b.
    + intros (a & b & Hab). destruct a as [|c' a]; [left; by exists b|].
      right. injection Hab as -> ->. eauto.
Qed.

(** A hostname with a dot somewhere in it. *)
Definition containsDot (s : string) : Prop := ∃ a b, s = a +:+ "." +:+ b.

Lemma main_valid world f :
  hostname f ≠ "" → ¬ containsDot (hostname f) → backendAddr f ≠ "" →
  main world f =
  match url_Parse_reply world ("http://" +:+ backendAddr f) with
  | inr err => log_Fatal ("couldn't parse backend address: " +:+ Error err)
  | inl url =>
      (if useHTTPS f
       then
         r ← ts_Listen world ":443";
         emit EvGo;;
         mret match r with
              | inl ln => inl (tls_NewListener ln)
              | inr err => inr err
              end
       else ts_Listen world ":80") ≫= λ r,
      match r with
      | inr err => log_Fatal (Error err)
      | inl ln =>
          log_Printf ("proxy-to-grafana running at " +:+ Addr ln +:+
                      ", proxying to " +:+ backendAddr f);;
          err ← http_Serve world ln (proxyHandler url);
          log_Fatal (Error err)
      end
  end.
Proof.
  intros Hh Hd Hb. unfold main.
  rewrite bool_decide_eq_false_2 by done.
  destruct (strings_Contains (hostname f) ".") eqn:Hc.
  { exfalso. apply Hd. by apply strings_Contains_spec. }
  cbn. destruct (decide (backendAddr f = "")); [done|]. reflexivity.
Qed.

Lemma main_invalid world f :
  hostname f = "" ∨ containsDot (hostname f) ∨ backendAddr f = "" →
  main world f = log_Fatal "missing or invalid --hostname" ∨
  main world f = log_Fatal "missing --backend-addr".
Proof.
  intros Hbad. unfold main.
  destruct (bool_decide (hostname f = "")) eqn:He; [by left|].
  destruct (strings_Contains (hostname f) ".") eqn:Hc; [by left|].
  cbn. destruct (decide (backendAddr f = "")) as [Hb|Hb]; [by right|].
  exfalso. destruct Hbad as [Hh|[Hd|Hb']]; [|
    |done].
  - by apply bool_decide_eq_false in He.
  - apply strings_Contains_spec in Hd. congruence.
Qed.

(** C8: with an empty hostname, a dot in the hostname or an empty backend
    address, the only thread of the run is the main thread, which dies in
    [log.Fatal] before any call; and a call of [ts.Listen] in any thread
    of a run means that the hostname is not empty and has no dot and that
    the backend address is not empty. *)
Theorem C8_invalid_flags_fatal (world : World) (f : Flags) :
  (hostname f = "" ∨ containsDot (hostname f) ∨ backendAddr f = "" →
   threads world f = [log_Fatal "missing or invalid --hostname"] ∨
   threads world f = [log_Fatal "missing --backend-addr"]) ∧
  (∀ p e, p ∈ threads world f → e ∈ trace p → isListen e = true →
          hostname f ≠ "" ∧ ¬ containsDot (hostname f) ∧ backendAddr f ≠ "").
Proof.
  assert (hostname f = "" ∨ containsDot (hostname f) ∨ backendAddr f = "" →
          threads world f = [log_Fatal "missing or invalid --hostname"] ∨
          threads world f = [log_Fatal "missing --backend-addr"]) as Hbad.
  { intros Hbad. unfold threads.
    destruct (main_invalid world f Hbad) as [-> | ->]; [left|right]; reflexivity. }
  split; [exact Hbad|].
  intros p e Hp He _.
  assert (∀ line, threads world f = [log_Fatal line] → False) as Habs.
  { intros line Heq. rewrite Heq in Hp. apply list_elem_of_singleton in Hp. subst p.
    cbn in He. by apply not_elem_of_nil in He. }
  assert (¬ (hostname f = "" ∨ containsDot (hostname f) ∨ backendAddr f = "")) as Hok.
  { intros Hb. destruct (Hbad Hb) as [Heq|Heq]; exact (Habs _ Heq). }
  repeat split; intros ?; apply Hok; auto.
Qed.

Definition dottedFlags : Flags :=
  {| hostname := "grafana.corp"; backendAddr := "localhost:3000";
     tailscaleDir := "./"; useHTTPS := true |}.

Definition plainFlags : Flags :=
  {| hostname := "svc"; backendAddr := "127.0.0.1:3000";
     tailscaleDir := "./"; useHTTPS := false |}.

Definition tlsFlags : Flags :=
  {| hostname := "svc"; backendAddr := "127.0.0.1:3000";
     tailscaleDir := "./"; useHTTPS := true |}.

Lemma C8_witness :
  (threads calmWorld dottedFlags = [log_Fatal "missing or invalid --hostname"] ∨
   threads calmWorld dottedFlags = [log_Fatal "missing --backend-addr"]) ∧
  hostname tlsFlags ≠ "" ∧ ¬ containsDot (hostname tlsFlags) ∧ backendAddr tlsFlags ≠ "".
Proof.
  split.
  - apply (proj1 (C8_invalid_flags_fatal calmWorld dottedFlags)).
    right; left. by exists "grafana", "corp".
  - apply (proj2 (C8_invalid_flags_fatal calmWorld tlsFlags)
             (redirectTask calmWorld "svc") (EvListen ":80" true)).
    + vm_compute. apply list_elem_of_In. right. left. reflexivity.
    + vm_compute. apply list_elem_of_In. do 8 right. left. reflexivity.
    + reflexivity.
Defined.

(** The scenario of the spec without TLS: one listener, on the plaintext
    port, serving the proxy. *)
Example plain_run :
  threads calmWorld plainFlags =
  [([EvListen ":80" true;
     EvLog "proxy-to-grafana running at :80, proxying to 127.0.0.1:3000";
     EvServe {| Addr := ":80"; overTLS := false |} (proxyHandler "http://127.0.0.1:3000")],
    Serving)].
Proof. reflexivity. Qed.

(** ** The readiness poll *)

(** Number of sleeps in a trace. *)
Definition sleeps (t : list Event) : nat := length (List.filter isSleep t).

(** The [i]-th status query is answered, with a state other than
    "Running". *)
Definition notRunningAt (world : World) (i : nat) : Prop :=
  ∃ st, Status_reply world i = inl st ∧ BackendState st ≠ "Running".

(** The [i]-th status query is answered with the state "Running". *)
Definition runningAt (world : World) (i : nat) : Prop :=
  ∃ st, Status_reply world i = inl st ∧ BackendState st = "Running".

(** The status sequence first reports "Running" on attempt [k], counted
    from 1. *)
Definition firstRunningOn (world : World) (k : nat) : Prop :=
  1 ≤ k ∧ (∀ i, i < k - 1 → notRunningAt world i) ∧ runningAt world (k - 1).

(** The status sequence does not report "Running" in its first [n]
    answers. *)
Definition neverRunningWithin (world : World) (n : nat) : Prop :=
  ∀ i, i < n → notRunningAt world i.

(** What the goroutine does once the loop is over. *)
Definition afterPoll (world : World) (hostname : string) : Proc unit :=
  r ← ts_Listen world ":80";
  match r with
  | inr err => log_Fatal (Error err)
  | inl l80 =>
      r ← tailscale_ExpandSNIName world hostname;
      if negb r.2 then log_Fatal "can't get hostname for https redirect"
      else
        err ← http_Serve world l80 (redirectHandler r.1);
        log_Fatal (Error err)
  end.

Lemma redirectTask_unfold world hostname :
  redirectTask world hostname = (waitRunning world 60 0;; afterPoll world hostname).
Proof. reflexivity. Qed.

Lemma waitRunning_S world n i :
  waitRunning world (S n) i =
  match Status_reply world i with
  | inr err => ([EvStatus], Fatal (Error err))
  | inl st =>
      if decide (BackendState st = "Running")
      then ([EvStatus; EvLog ("tailscale status: " +:+ BackendState st)], Done tt)
      else (EvStatus :: EvLog ("tailscale status: " +:+ BackendState st) :: EvSleep ::
              trace (waitRunning world n (S i)),
            result (waitRunning world n (S i)))
  end.
Proof.
  cbn [waitRunning]. unfold tailscale_Status.
  destruct (Status_reply world i) as [st|err]; [|reflexivity].
  unfold mbind, Proc_bind, log_Printf, time_Sleep, emit. cbn.
  destruct (decide _); [reflexivity|]. cbn.
  destruct (waitRunning world n (S i)) as [t [[]| |]]; reflexivity.
Qed.

Section Poll.

Context (world : World).

Lemma waitRunning_found j : ∀ n i,
  j < n →
  (∀ m, m < j → notRunningAt world (i + m)) →
  runningAt world (i + j) →
  result (waitRunning world n i) = Done tt ∧
  polls (trace (waitRunning world n i)) = S j ∧
  sleeps (trace (waitRunning world n i)) = j ∧
  firstListen (trace (waitRunning world n i)) = None.
Proof.
  induction j as [|j IH]; intros [|n] i Hn Hnot Hrun; try lia.
  - rewrite Nat.add_0_r in Hrun. destruct Hrun as (st & Hst & Hrun).
    rewrite waitRunning_S, Hst. destruct (decide _); [|done]. done.
  - destruct (Hnot 0) as (st & Hst & Hnr); [lia|]. rewrite Nat.add_0_r in Hst.
    rewrite waitRunning_S, Hst. destruct (decide _); [done|].
    destruct (IH n (S i)) as (Hres & Hpolls & Hsleeps & Hlisten).
    + lia.
    + intros m Hm. replace (S i + m) with (i + S m) by lia. apply Hnot. lia.
    + by replace (S i + j) with (i + S j) by lia.
    + unfold polls, sleeps in *. cbn. by rewrite Hres, Hpolls, Hsleeps, Hlisten.
Qed.

Lemma waitRunning_exhausted n : ∀ i,
  (∀ m, m < n → notRunningAt world (i + m)) →
  result (waitRunning world n i) = Done tt ∧
  polls (trace (waitRunning world n i)) = n ∧
  sleeps (trace (waitRunning world n i)) = n ∧
  firstListen (trace (waitRunning world n i)) = None.
Proof.
  induction n as [|n IH]; intros i Hnot; [done|].
  destruct (Hnot 0) as (st & Hst & Hnr); [lia|]. rewrite Nat.add_0_r in Hst.
  rewrite waitRunning_S, Hst. destruct (decide _); [done|].
  destruct (IH (S i)) as (Hres & Hpolls & Hsleeps & Hlisten).
  - intros m Hm. replace (S i + m) with (i + S m) by lia. apply Hnot. lia.
  - unfold polls, sleeps in *. cbn. by rewrite Hres, Hpolls, Hsleeps, Hlisten.
Qed.

Lemma waitRunning_error j err : ∀ n i,
  j < n →
  (∀ m, m < j → notRunningAt world (i + m)) →
  Status_reply world (i + j) = inr err →
  result (waitRunning world n i) = Fatal (Error err) ∧
  polls (trace (waitRunning world n i)) = S j ∧
  sleeps (trace (waitRunning world n i)) = j ∧
  firstListen (trace (waitRunning world n i)) = None ∧
  last (trace (waitRunning world n i)) = Some EvStatus.
Proof.
  induction j as [|j IH]; intros [|n] i Hn Hnot Herr; try lia.
  - rewrite Nat.add_0_r in Herr. by rewrite waitRunning_S, Herr.
  - destruct (Hnot 0) as (st & Hst & Hnr); [lia|]. rewrite Nat.add_0_r in Hst.
    rewrite waitRunning_S, Hst. destruct (decide _); [done|].
    destruct (IH n (S i)) as (Hres & Hpolls & Hsleeps & Hlisten & Hlast).
    + lia.
    + intros m Hm. replace (S i + m) with (i + S m) by lia. apply Hnot. lia.
    + by replace (S i + j) with (i + S j) by lia.
    + unfold polls, sleeps in *. cbn [trace result fst snd].
      rewrite Hres. cbn. rewrite Hpolls, Hsleeps, Hlisten.
      repeat split; try done.
      destruct (trace (waitRunning world n (S i))) as [|e t]; [done|].
      cbn in *. done.
Qed.

Lemma beforeListen_app (t1 t2 : list Event) :
  firstListen t1 = None →
  beforeListen (t1 ++ t2) = (t1 ++.) <$> beforeListen t2.
Proof.
  induction t1 as [|e t1 IH]; cbn.
  - intros _. by destruct (beforeListen t2).
  - destruct (isListen e); [done|]. intros Hn. rewrite IH by done.
    by destruct (beforeListen t2).
Qed.

Lemma firstListen_app (t1 t2 : list Event) :
  firstListen t1 = None → firstListen (t1 ++ t2) = firstListen t2.
Proof.
  induction t1 as [|e t1 IH]; cbn; [done|]. destruct (isListen e); [done|]. exact IH.
Qed.

Lemma polls_app (t1 t2 : list Event) : polls (t1 ++ t2) = polls t1 + polls t2.
Proof. unfold polls. by rewrite List.filter_app, length_app. Qed.

Lemma sleeps_app (t1 t2 : list Event) : sleeps (t1 ++ t2) = sleeps t1 + sleeps t2.
Proof. unfold sleeps. by rewrite List.filter_app, length_app. Qed.

(** After the loop: the first event is the call of [ts.Listen] for the
    plaintext port, and no status query follows. *)
Lemma afterPoll_trace hostname :
  ∃ rest, trace (afterPoll world hostname) =
          EvListen ":80" (bool_decide (Listen_reply world ":80" = None)) :: rest ∧
          polls rest = 0.
Proof.
  unfold afterPoll, ts_Listen, tailscale_ExpandSNIName, http_Serve.
  destruct (Listen_reply world ":80") as [err|]; cbn.
  - by eexists.
  - destruct (ExpandSNIName_reply world hostname) as [name []]; cbn; [|by eexists].
    destruct (Serve_reply world _); cbn; by eexists.
Qed.

End Poll.

Lemma redirectTask_after_loop world hostname :
  result (waitRunning world 60 0) = Done tt →
  redirectTask world hostname =
  (trace (waitRunning world 60 0) ++ trace (afterPoll world hostname),
   result (afterPoll world hostname)).
Proof.
  intros Hres. rewrite redirectTask_unfold.
  exact (bind_Done _ (λ _, afterPoll world hostname) tt Hres).
Qed.

(** The listener call of the goroutine, once the loop has made [k]
    status queries and [s] sleeps and has returned. *)
Lemma redirectTask_listens world hostname k s :
  result (waitRunning world 60 0) = Done tt →
  polls (trace (waitRunning world 60 0)) = k →
  sleeps (trace (waitRunning world 60 0)) = s →
  firstListen (trace (waitRunning world 60 0)) = None →
  ∃ pre, beforeListen (trace (redirectTask world hostname)) = Some pre ∧
         polls pre = k ∧ sleeps pre = s ∧
         polls (trace (redirectTask world hostname)) = k ∧
         firstListen (trace (redirectTask world hostname)) =
         Some (EvListen ":80" (bool_decide (Listen_reply world ":80" = None))).
Proof.
  intros Hres Hpolls Hsleeps Hlisten.
  rewrite redirectTask_after_loop by done. cbn [trace fst].
  destruct (afterPoll_trace world hostname) as (rest & -> & Hrest).
  generalize dependent (trace (waitRunning world 60 0)). intros loop Hpolls Hsleeps Hlisten.
  rewrite beforeListen_app, firstListen_app, polls_app by done.
  cbn [beforeListen firstListen isListen fmap option_fmap option_map].
  exists (loop ++ []).
  rewrite app_nil_r. unfold polls in *. cbn [List.filter isStatus length]. rewrite Hrest.
  repeat split; [done|done|lia].
Qed.

(** A world whose overlay network never leaves the state "Starting". *)
Definition stalledWorld : World :=
  withStatus (λ _, inl {| BackendState := "Starting" |}).

(** C1, as the spec has it, fails when the status never is "Running":
    after the 60th query the goroutine opens the plaintext listener and
    serves the redirect; nothing is fatal. *)
Lemma C1_counterexample :
  neverRunningWithin stalledWorld 60 ∧
  polls (trace (redirectTask stalledWorld "svc")) = 60 ∧
  firstListen (trace (redirectTask stalledWorld "svc")) = Some (EvListen ":80" true) ∧
  result (redirectTask stalledWorld "svc") = Serving ∧
  isFatal (result (redirectTask stalledWorld "svc")) = false.
Proof.
  split.
  - intros i _. eexists. split; [reflexivity|discriminate].
  - vm_compute. done.
Qed.

(** C1, amended: when the status first is "Running" on attempt k ≤ 60,
    the goroutine calls [ts.Listen] for the plaintext port after exactly k
    status queries (and k - 1 sleeps) and makes no further query; when the
    status is not "Running" in any of the first 60 answers, the loop ends
    without a fatal error and the goroutine calls [ts.Listen] for the
    plaintext port all the same, after exactly 60 queries and 60 sleeps. *)
Theorem C1_listener_after_polls (world : World) (hostname : string) :
  (∀ k, k ≤ 60 → firstRunningOn world k →
     ∃ pre, beforeListen (trace (redirectTask world hostname)) = Some pre ∧
            polls pre = k ∧ sleeps pre = k - 1 ∧
            polls (trace (redirectTask world hostname)) = k ∧
            firstListen (trace (redirectTask world hostname)) =
            Some (EvListen ":80" (bool_decide (Listen_reply world ":80" = None)))) ∧
  (neverRunningWithin world 60 →
     ∃ pre, beforeListen (trace (redirectTask world hostname)) = Some pre ∧
            polls pre = 60 ∧ sleeps pre = 60 ∧
            polls (trace (redirectTask world hostname)) = 60 ∧
            firstListen (trace (redirectTask world hostname)) =
            Some (EvListen ":80" (bool_decide (Listen_reply world ":80" = None)))).
Proof.
  split.
  - intros k Hk (Hk1 & Hnot & Hrun).
    destruct (waitRunning_found world (k - 1) 60 0) as (Hres & Hpolls & Hsleeps & Hlisten);
      [lia|done|done|].
    replace (S (k - 1)) with k in Hpolls by lia.
    by apply redirectTask_listens.
  - intros Hnever.
    destruct (waitRunning_exhausted world 60 0) as (Hres & Hpolls & Hsleeps & Hlisten);
      [done|].
    by apply redirectTask_listens.
Qed.

Lemma C1_witness :
  (∃ pre, beforeListen (trace (redirectTask calmWorld "svc")) = Some pre ∧
          polls pre = 3 ∧ sleeps pre = 3 - 1 ∧
          polls (trace (redirectTask calmWorld "svc")) = 3 ∧
          firstListen (trace (redirectTask calmWorld "svc")) =
          Some (EvListen ":80" (bool_decide (Listen_reply calmWorld ":80" = None)))) ∧
  (∃ pre, beforeListen (trace (redirectTask stalledWorld "svc")) = Some pre ∧
          polls pre = 60 ∧ sleeps pre = 60 ∧
          polls (trace (redirectTask stalledWorld "svc")) = 60 ∧
          firstListen (trace (redirectTask stalledWorld "svc")) =
          Some (EvListen ":80" (bool_decide (Listen_reply stalledWorld ":80" = None)))).
Proof.
  split.
  - apply (proj1 (C1_listener_after_polls calmWorld "svc") 3); [lia|].
    split; [lia|]. split.
    + intros i Hi. eexists. split; [reflexivity|].
      cbn. destruct (decide (i < 2)); [discriminate|lia].
    + eexists. split; reflexivity.
  - apply (proj2 (C1_listener_after_polls stalledWorld "svc")).
    intros i _. eexists. split; [reflexivity|discriminate].
Defined.

(** The scenario of the spec with TLS and the statuses "Starting",
    "Starting", "Running". *)
Example tls_run :
  threads calmWorld tlsFlags =
  [([EvListen ":443" true; EvGo;
     EvLog "proxy-to-grafana running at :443, proxying to 127.0.0.1:3000";
     EvServe {| Addr := ":443"; overTLS := true |} (proxyHandler "http://127.0.0.1:3000")],
    Serving);
   ([EvStatus; EvLog "tailscale status: Starting"; EvSleep;
     EvStatus; EvLog "tailscale status: Starting"; EvSleep;
     EvStatus; EvLog "tailscale status: Running";
     EvListen ":80" true; EvExpandSNIName "svc";
     EvServe {| Addr := ":80"; overTLS := false |} (redirectHandler "svc.example.ts.net")],
    Serving)].
Proof. vm_compute. reflexivity. Qed.

(** C10: when a status query of the loop fails, all queries before it
    having been answered with a state other than "Running", the goroutine
    dies in [log.Fatal] with that error: the failed query is the last
    event of the thread, no query follows it and [ts.Listen] is not
    called. *)
Theorem C10_status_error_fatal (world : World) (hostname : string)
    (j : nat) (err : error) :
  j < 60 →
  (∀ i, i < j → notRunningAt world i) →
  Status_reply world j = inr err →
  result (redirectTask world hostname) = Fatal (Error err) ∧
  polls (trace (redirectTask world hostname)) = S j ∧
  sleeps (trace (redirectTask world hostname)) = j ∧
  last (trace (redirectTask world hostname)) = Some EvStatus ∧
  firstListen (trace (redirectTask world hostname)) = None.
Proof.
  intros Hj Hnot Herr.
  destruct (waitRunning_error world j err 60 0) as (Hres & Hpolls & Hsleeps & Hlisten & Hlast);
    [done|done|done|].
  rewrite redirectTask_unfold, (bind_Fatal _ _ _ Hres). done.
Qed.

(** A world whose second status query fails. *)
Definition brokenWorld : World :=
  withStatus (λ i, if decide (i < 1) then inl {| BackendState := "Starting" |}
                   else inr (errorString "connection refused")).

Lemma C10_witness :
  result (redirectTask brokenWorld "svc") = Fatal "connection refused" ∧
  polls (trace (redirectTask brokenWorld "svc")) = 2 ∧
  sleeps (trace (redirectTask brokenWorld "svc")) = 1 ∧
  last (trace (redirectTask brokenWorld "svc")) = Some EvStatus ∧
  firstListen (trace (redirectTask brokenWorld "svc")) = None.
Proof.
  apply (C10_status_error_fatal brokenWorld "svc" 1 (errorString "connection refused"));
    [lia| |reflexivity].
  intros i Hi. exists {| BackendState := "Starting" |}. split; [|discriminate].
  cbn. destruct (decide (i < 1)); [reflexivity|lia].
Defined.

(** ** The redirect *)

(** The HTTPS equivalent of a request in the spec's words: the secure
    name as host, followed by the path of the request. *)
Definition httpsEquivalent (name : string) (r : Request) : string :=
  "https://" +:+ name +:+ URL_Path r.

(** C2, as the spec has it, fails for a request with a path: the
    redirect goes to the bare secure name. *)
Lemma C2_counterexample :
  redirect_code (redirectFunc "svc.example.ts.net" spoofedDashboard) = 301%Z ∧
  redirect_url (redirectFunc "svc.example.ts.net" spoofedDashboard) =
    "https://svc.example.ts.net" ∧
  httpsEquivalent "svc.example.ts.net" spoofedDashboard =
    "https://svc.example.ts.net/dashboard" ∧
  redirect_url (redirectFunc "svc.example.ts.net" spoofedDashboard) ≠
    httpsEquivalent "svc.example.ts.net" spoofedDashboard.
Proof. repeat split. discriminate. Qed.

Lemma elem_of_trace_bind {A B} (p : Proc A) (f : A → Proc B) (e : Event) :
  e ∈ trace (p ≫= f) →
  e ∈ trace p ∨ ∃ a, result p = Done a ∧ e ∈ trace (f a).
Proof.
  destruct p as [t [a| |]]; unfold mbind, Proc_bind, trace, result; cbn; [|auto|auto].
  rewrite elem_of_app. intros [?|?]; eauto.
Qed.

Lemma waitRunning_events world n : ∀ i e,
  e ∈ trace (waitRunning world n i) →
  e = EvStatus ∨ e = EvSleep ∨ ∃ line, e = EvLog line.
Proof.
  induction n as [|n IH]; intros i e.
  - cbn. by intros ?%not_elem_of_nil.
  - rewrite waitRunning_S.
    destruct (Status_reply world i) as [st|err]; [destruct (decide _)|]; cbn [trace fst].
    + rewrite !elem_of_cons. intros [->|[->|?%not_elem_of_nil]]; try done; eauto.
    + rewrite !elem_of_cons. intros [->|[->|[->|?]]]; eauto.
    + rewrite !elem_of_cons. intros [->|?%not_elem_of_nil]; try done; eauto.
Qed.

(** C2, amended: whenever the goroutine serves, it serves on the
    plaintext listener the handler that redirects to the name that
    [ExpandSNIName] gave for the hostname; and that handler answers every
    request with 301 and the target "https://" followed by that name, the
    same for every path. *)
Theorem C2_redirect_to_secure_name (world : World) (hostname : string)
    (ln : Listener) (h : Handler) :
  EvServe ln h ∈ trace (redirectTask world hostname) →
  ∃ name,
    ExpandSNIName_reply world hostname = (name, true) ∧
    ln = {| Addr := ":80"; overTLS := false |} ∧
    h = redirectHandler name ∧
    ∀ r, redirect_code (redirectFunc name r) = http_StatusMovedPermanently ∧
         redirect_code (redirectFunc name r) = 301%Z ∧
         redirect_url (redirectFunc name r) = "https://" +:+ name.
Proof.
  rewrite redirectTask_unfold.
  intros [Hloop|(_ & _ & Hafter)]%elem_of_trace_bind.
  { apply waitRunning_events in Hloop as [?|[?|[? ?]]]; discriminate. }
  revert Hafter. unfold afterPoll, ts_Listen, tailscale_ExpandSNIName, http_Serve.
  destruct (Listen_reply world ":80") as [err|]; cbn.
  { rewrite !elem_of_cons. intros [?|?%not_elem_of_nil]; [discriminate|done]. }
  destruct (ExpandSNIName_reply world hostname) as [name ok]; destruct ok; cbn.
  - assert (EvServe ln h ∈ [EvListen ":80" true; EvExpandSNIName hostname;
                             EvServe {| Addr := ":80"; overTLS := false |} (redirectHandler name)] →
            ln = {| Addr := ":80"; overTLS := false |} ∧ h = redirectHandler name) as Hin.
    { rewrite !elem_of_cons.
      intros [?|[?|[[= -> ->]|?%not_elem_of_nil]]]; done. }
    destruct (Serve_reply world _); cbn; intros [-> ->]%Hin; by exists name.
  - rewrite !elem_of_cons. intros [?|[?|?%not_elem_of_nil]]; done.
Qed.

Lemma C2_witness :
  ∃ name,
    ExpandSNIName_reply calmWorld "svc" = (name, true) ∧
    {| Addr := ":80"; overTLS := false |} = {| Addr := ":80"; overTLS := false |} ∧
    redirectHandler "svc.example.ts.net" = redirectHandler name ∧
    ∀ r, redirect_code (redirectFunc name r) = http_StatusMovedPermanently ∧
         redirect_code (redirectFunc name r) = 301%Z ∧
         redirect_url (redirectFunc name r) = "https://" +:+ name.
Proof.
  apply (C2_redirect_to_secure_name calmWorld "svc"
           {| Addr := ":80"; overTLS := false |} (redirectHandler "svc.example.ts.net")).
  vm_compute. apply list_elem_of_In. do 10 right. left. reflexivity.
Defined.

(** ** The log knob *)

Section LogKnobProperties.

Import logknob.

Context {Environ : Type}.

(** The simplest net map: its list of capabilities. *)
Local Instance caps_NetMap : NetMap (list string) := λ caps, caps.

Lemma updateFromCaps_frame (caps : list string) (l : @LogKnob Environ) :
  manual (updateFromCaps caps l) = manual l ∧
  env (updateFromCaps caps l) = env l ∧
  capName (updateFromCaps caps l) = capName l ∧
  cap (updateFromCaps caps l) = bool_decide (capName l ∈ caps).
Proof.
  induction caps as [|c caps IH]; cbn.
  - split; [done|]. split; [done|]. split; [done|].
    symmetry. apply bool_decide_eq_false. apply not_elem_of_nil.
  - destruct (decide (c = capName l)) as [->|Hne]; cbn.
    + split; [done|]. split; [done|]. split; [done|].
      symmetry. apply bool_decide_eq_true. apply elem_of_cons. by left.
    + destruct IH as (Hm & He & Hn & Hc).
      split; [done|]. split; [done|]. split; [done|].
      rewrite Hc. apply bool_decide_ext. rewrite elem_of_cons.
      split; [by right|]. intros [Heq|Hin]; [congruence|done].
Qed.

(** C9: logging is on exactly when the manual flag, the environment
    reading or the capability flag is on; [Set] writes the manual flag
    and nothing else; [UpdateFromNetMap] writes the capability flag (of a
    knob with a capability name) and nothing else; and the environment
    reading does not depend on the two flags. *)
Theorem C9_shouldLog_or (l : @LogKnob Environ) (e : Environ) :
  shouldLog l e = manual l || env l e || cap l ∧
  (shouldLog l e = true ↔ manual l = true ∨ env l e = true ∨ cap l = true) ∧
  (∀ v, manual (Set_ v l) = v ∧ env (Set_ v l) = env l ∧ cap (Set_ v l) = cap l ∧
        capName (Set_ v l) = capName l ∧
        shouldLog (Set_ v l) e = v || env l e || cap l) ∧
  (∀ (T : Type) (netMap : NetMap T) (nm : T),
        manual (UpdateFromNetMap nm l) = manual l ∧
        env (UpdateFromNetMap nm l) = env l ∧
        capName (UpdateFromNetMap nm l) = capName l ∧
        cap (UpdateFromNetMap nm l) =
          (if decide (capName l = "") then cap l
           else bool_decide (capName l ∈ SelfCapabilities nm)) ∧
        shouldLog (UpdateFromNetMap nm l) e =
          manual l || env l e || cap (UpdateFromNetMap nm l)) ∧
  (∀ m c, shouldLog {| capName := capName l; cap := c; env := env l; manual := m |} e =
          m || env l e || c).
Proof.
  split; [reflexivity|]. split.
  { unfold shouldLog. rewrite !orb_true_iff. tauto. }
  split; [intros v; repeat split|]. split; [|reflexivity].
  intros T netMap nm. unfold UpdateFromNetMap, shouldLog.
  destruct (decide (capName l = "")); [done|].
  destruct (updateFromCaps_frame (SelfCapabilities nm) l) as (Hm & He & Hn & Hc).
  by rewrite Hm, He, Hn, Hc.
Qed.

End LogKnobProperties.

(** * Further properties of the code *)

(** ** Startup: the main thread *)

(** As [calmWorld], with other answers of [ts.Listen]. *)
Definition withListen (reply : string → option error) : World :=
  {| WhoIs_reply := WhoIs_reply calmWorld;
     Status_reply := Status_reply calmWorld;
     ExpandSNIName_reply := ExpandSNIName_reply calmWorld;
     Listen_reply := reply;
     Serve_reply := Serve_reply calmWorld;
     url_Parse_reply := url_Parse_reply calmWorld |}.

(** As [calmWorld], with another [url.Parse]. *)
Definition withParse (reply : string → string + error) : World :=
  {| WhoIs_reply := WhoIs_reply calmWorld;
     Status_reply := Status_reply calmWorld;
     ExpandSNIName_reply := ExpandSNIName_reply calmWorld;
     Listen_reply := Listen_reply calmWorld;
     Serve_reply := Serve_reply calmWorld;
     url_Parse_reply := reply |}.

(** As [calmWorld], with another [ExpandSNIName]. *)
Definition withExpand (reply : string → string * bool) : World :=
  {| WhoIs_reply := WhoIs_reply calmWorld;
     Status_reply := Status_reply calmWorld;
     ExpandSNIName_reply := reply;
     Listen_reply := Listen_reply calmWorld;
     Serve_reply := Serve_reply calmWorld;
     url_Parse_reply := url_Parse_reply calmWorld |}.

Definition isDone {A} (r : Result A) : bool :=
  match r with Done _ => true | _ => false end.

Lemma svc_no_dot : ¬ containsDot "svc".
Proof.
  intros Hd. apply strings_Contains_spec in Hd. discriminate.
Qed.

(** The main thread with valid flags and a parsed backend URL. *)
Lemma main_parsed world f url :
  hostname f ≠ "" → ¬ containsDot (hostname f) → backendAddr f ≠ "" →
  url_Parse_reply world ("http://" +:+ backendAddr f) = inl url →
  main world f =
  if useHTTPS f
  then match Listen_reply world ":443" with
       | Some err => ([EvListen ":443" false; EvGo], Fatal (Error err))
       | None =>
           ([EvListen ":443" true; EvGo;
             EvLog ("proxy-to-grafana running at :443, proxying to " +:+ backendAddr f);
             EvServe {| Addr := ":443"; overTLS := true |} (proxyHandler url)],
            match Serve_reply world {| Addr := ":443"; overTLS := true |} with
            | None => Serving
            | Some err => Fatal (Error err)
            end)
       end
  else match Listen_reply world ":80" with
       | Some err => ([EvListen ":80" false], Fatal (Error err))
       | None =>
           ([EvListen ":80" true;
             EvLog ("proxy-to-grafana running at :80, proxying to " +:+ backendAddr f);
             EvServe {| Addr := ":80"; overTLS := false |} (proxyHandler url)],
            match Serve_reply world {| Addr := ":80"; overTLS := false |} with
            | None => Serving
            | Some err => Fatal (Error err)
            end)
       end.
Proof.
  intros Hh Hd Hb Hurl. rewrite main_valid, Hurl by done.
  unfold ts_Listen, http_Serve.
  destruct (useHTTPS f).
  - destruct (Listen_reply world ":443"); [reflexivity|]. cbn.
    destruct (Serve_reply world _); reflexivity.
  - destruct (Listen_reply world ":80"); [reflexivity|]. cbn.
    destruct (Serve_reply world _); reflexivity.
Qed.

(** The flags are valid, or the main thread died at once. *)
Lemma main_valid_or_dead world f :
  (hostname f ≠ "" ∧ ¬ containsDot (hostname f) ∧ backendAddr f ≠ "") ∨
  ∃ line, main world f = log_Fatal line.
Proof.
  destruct (decide (hostname f = "")) as [Hh|Hh].
  { right. destruct (main_invalid world f) as [->| ->]; eauto. }
  destruct (strings_Contains (hostname f) ".") eqn:Hc.
  { right. apply strings_Contains_spec in Hc.
    destruct (main_invalid world f) as [->| ->]; eauto. }
  destruct (decide (backendAddr f = "")) as [Hb|Hb].
  { right. destruct (main_invalid world f) as [->| ->]; eauto. }
  left. repeat split; [done| |done].
  intros Hd%strings_Contains_spec. congruence.
Qed.

(** X1: with valid flags, when [url.Parse] rejects the backend address
    the run is the main thread alone, dead in [log.Fatal] with the parse
    error in its line, before any call: no listener, no goroutine. *)
Theorem X1_parse_error_fatal (world : World) (f : Flags) (err : error) :
  hostname f ≠ "" → ¬ containsDot (hostname f) → backendAddr f ≠ "" →
  url_Parse_reply world ("http://" +:+ backendAddr f) = inr err →
  threads world f = [([], Fatal ("couldn't parse backend address: " +:+ Error err))].
Proof.
  intros Hh Hd Hb Hurl. unfold threads. rewrite main_valid, Hurl by done. reflexivity.
Qed.

Lemma X1_witness :
  threads (withParse (λ _, inr (errorString "invalid port"))) plainFlags =
  [([], Fatal "couldn't parse backend address: invalid port")].
Proof.
  apply (X1_parse_error_fatal (withParse (λ _, inr (errorString "invalid port")))
           plainFlags (errorString "invalid port"));
    [discriminate | exact svc_no_dot | discriminate | reflexivity].
Defined.

Lemma elem_of_threads world f p :
  p ∈ threads world f →
  p = main world f ∨
  (EvGo ∈ trace (main world f) ∧ p = redirectTask world (hostname f)).
Proof.
  unfold threads. rewrite elem_of_cons. intros [->|Hp]; [by left|].
  destruct (bool_decide (EvGo ∈ trace (main world f))) eqn:Hgo.
  - apply bool_decide_eq_true in Hgo. apply list_elem_of_singleton in Hp. by right.
  - by apply not_elem_of_nil in Hp.
Qed.

Lemma main_Go world f :
  EvGo ∈ trace (main world f) → useHTTPS f = true.
Proof.
  destruct (main_valid_or_dead world f) as [(Hh & Hd & Hb)|[line ->]].
  - destruct (url_Parse_reply world ("http://" +:+ backendAddr f)) as [url|err] eqn:Hurl.
    2: { rewrite main_valid, Hurl by done. by intros ?%not_elem_of_nil. }
    rewrite (main_parsed world f url) by done.
    destruct (useHTTPS f); [done|].
    destruct (Listen_reply world ":80"); cbn [trace fst]; rewrite !elem_of_cons.
    + intros [?|?%not_elem_of_nil]; done.
    + intros [?|[?|[?|?%not_elem_of_nil]]]; done.
  - by intros ?%not_elem_of_nil.
Qed.

Lemma main_serves world f ln h :
  EvServe ln h ∈ trace (main world f) →
  ∃ url, url_Parse_reply world ("http://" +:+ backendAddr f) = inl url ∧
         h = proxyHandler url ∧
         ln = {| Addr := if useHTTPS f then ":443" else ":80"; overTLS := useHTTPS f |}.
Proof.
  intros Hserve.
  destruct (main_valid_or_dead world f) as [(Hh & Hd & Hb)|[line Hdead]].
  2: { rewrite Hdead in Hserve. by apply not_elem_of_nil in Hserve. }
  destruct (url_Parse_reply world ("http://" +:+ backendAddr f)) as [url|err] eqn:Hurl.
  2: { rewrite main_valid, Hurl in Hserve by done. by apply not_elem_of_nil in Hserve. }
  rewrite (main_parsed world f url) in Hserve by done. exists url.
  revert Hserve. destruct (useHTTPS f).
  - destruct (Listen_reply world ":443"); cbn [trace fst]; rewrite !elem_of_cons.
    + intros [?|[?|?%not_elem_of_nil]]; done.
    + intros [?|[?|[?|[[= -> ->]|?%not_elem_of_nil]]]]; done.
  - destruct (Listen_reply world ":80"); cbn [trace fst]; rewrite !elem_of_cons.
    + intros [?|?%not_elem_of_nil]; done.
    + intros [?|[?|[[= -> ->]|?%not_elem_of_nil]]]; done.
Qed.

Lemma redirectTask_serves world hostname ln h :
  EvServe ln h ∈ trace (redirectTask world hostname) →
  ∃ name, ExpandSNIName_reply world hostname = (name, true) ∧
          h = redirectHandler name ∧
          ln = {| Addr := ":80"; overTLS := false |}.
Proof.
  rewrite redirectTask_unfold.
  intros [Hloop|(_ & _ & Hafter)]%elem_of_trace_bind.
  { apply waitRunning_events in Hloop as [?|[?|[? ?]]]; discriminate. }
  revert Hafter. unfold afterPoll, ts_Listen, tailscale_ExpandSNIName, http_Serve.
  destruct (Listen_reply world ":80") as [err|]; cbn.
  { rewrite !elem_of_cons. intros [?|?%not_elem_of_nil]; [discriminate|done]. }
  destruct (ExpandSNIName_reply world hostname) as [name ok]; destruct ok; cbn.
  - exists name.
    destruct (Serve_reply world _); cbn in *; revert Hafter; rewrite !elem_of_cons;
      intros [?|[?|[[= -> ->]|?%not_elem_of_nil]]]; done.
  - rewrite !elem_of_cons. intros [?|[?|?%not_elem_of_nil]]; done.
Qed.

(** X2: who serves what, in every run. The reverse proxy is served on
    the one listener of the main thread: the TLS listener on :443 when
    HTTPS is on, the plain listener on :80 when it is off. The redirect is
    served only when HTTPS is on, on the plain listener on :80, towards
    the name that [ExpandSNIName] gave for the hostname flag. So with
    HTTPS on the proxy is never served on the plaintext port. *)
Theorem X2_serving_discipline (world : World) (f : Flags)
    (p : Proc unit) (ln : Listener) (h : Handler) :
  p ∈ threads world f →
  EvServe ln h ∈ trace p →
  match h with
  | proxyHandler url =>
      url_Parse_reply world ("http://" +:+ backendAddr f) = inl url ∧
      ln = {| Addr := if useHTTPS f then ":443" else ":80"; overTLS := useHTTPS f |}
  | redirectHandler name =>
      useHTTPS f = true ∧
      ln = {| Addr := ":80"; overTLS := false |} ∧
      ExpandSNIName_reply world (hostname f) = (name, true)
  end.
Proof.
  intros [->|[Hgo ->]]%elem_of_threads Hserve.
  - apply main_serves in Hserve as (url & Hurl & -> & ->). done.
  - apply main_Go in Hgo.
    apply redirectTask_serves in Hserve as (name & Hname & -> & ->). done.
Qed.

Lemma X2_witness :
  useHTTPS tlsFlags = true ∧
  {| Addr := ":80"; overTLS := false |} = {| Addr := ":80"; overTLS := false |} ∧
  ExpandSNIName_reply calmWorld (hostname tlsFlags) = ("svc.example.ts.net", true).
Proof.
  apply (X2_serving_discipline calmWorld tlsFlags (redirectTask calmWorld "svc")
           {| Addr := ":80"; overTLS := false |} (redirectHandler "svc.example.ts.net")).
  - vm_compute. apply list_elem_of_In. right. left. reflexivity.
  - vm_compute. apply list_elem_of_In. do 10 right. left. reflexivity.
Defined.

(** X3: with HTTPS on, the error of [ts.Listen] for :443 is looked at
    only after the goroutine has been started: when that call fails the
    main thread dies in [log.Fatal] with the error, and the run has the
    goroutine as its second thread all the same. *)
Theorem X3_goroutine_before_error_check (world : World) (f : Flags)
    (url : string) (err : error) :
  hostname f ≠ "" → ¬ containsDot (hostname f) → backendAddr f ≠ "" →
  url_Parse_reply world ("http://" +:+ backendAddr f) = inl url →
  useHTTPS f = true →
  Listen_reply world ":443" = Some err →
  main world f = ([EvListen ":443" false; EvGo], Fatal (Error err)) ∧
  threads world f = [main world f; redirectTask world (hostname f)].
Proof.
  intros Hh Hd Hb Hurl Htls Hlisten.
  assert (main world f = ([EvListen ":443" false; EvGo], Fatal (Error err))) as Hmain.
  { rewrite (main_parsed world f url), Htls, Hlisten by done. reflexivity. }
  split; [done|]. unfold threads. rewrite Hmain.
  rewrite bool_decide_eq_true_2; [done|].
  cbn [trace fst]. rewrite !elem_of_cons. auto.
Qed.

(** A world in which the secure port cannot be bound. *)
Definition noSecurePort : World :=
  withListen (λ addr, if decide (addr = ":443")
                      then Some (errorString "address already in use") else None).

Lemma X3_witness :
  main noSecurePort tlsFlags =
    ([EvListen ":443" false; EvGo], Fatal "address already in use") ∧
  threads noSecurePort tlsFlags = [main noSecurePort tlsFlags; redirectTask noSecurePort "svc"].
Proof.
  apply (X3_goroutine_before_error_check noSecurePort tlsFlags
           "http://127.0.0.1:3000" (errorString "address already in use"));
    [discriminate | exact svc_no_dot | discriminate | reflexivity | reflexivity | reflexivity].
Defined.

(** ** Startup: the goroutine *)

Definition isExpandSNIName (e : Event) : bool :=
  match e with EvExpandSNIName _ => true | _ => false end.

Definition isServe (e : Event) : bool :=
  match e with EvServe _ _ => true | _ => false end.

(** The first [n] status queries are answered without an error. *)
Definition statusAnswered (world : World) (n : nat) : Prop :=
  ∀ i, i < n → ∃ st, Status_reply world i = inl st.

Lemma afterPoll_cases world hostname :
  afterPoll world hostname =
  match Listen_reply world ":80" with
  | Some err => ([EvListen ":80" false], Fatal (Error err))
  | None =>
      if (ExpandSNIName_reply world hostname).2
      then ([EvListen ":80" true; EvExpandSNIName hostname;
             EvServe {| Addr := ":80"; overTLS := false |}
               (redirectHandler (ExpandSNIName_reply world hostname).1)],
            match Serve_reply world {| Addr := ":80"; overTLS := false |} with
            | None => Serving
            | Some err => Fatal (Error err)
            end)
      else ([EvListen ":80" true; EvExpandSNIName hostname],
            Fatal "can't get hostname for https redirect")
  end.
Proof.
  unfold afterPoll, ts_Listen, tailscale_ExpandSNIName, http_Serve.
  destruct (Listen_reply world ":80") as [err|]; [reflexivity|]. cbn.
  destruct (ExpandSNIName_reply world hostname) as [name []]; cbn; [|reflexivity].
  destruct (Serve_reply world _); reflexivity.
Qed.

Section Goroutine.

Context (world : World).

Lemma waitRunning_result n : ∀ i,
  result (waitRunning world n i) = Done tt ∨
  ∃ err, result (waitRunning world n i) = Fatal (Error err).
Proof.
  induction n as [|n IH]; intros i; [by left|].
  rewrite waitRunning_S.
  destruct (Status_reply world i) as [st|err]; [|eauto].
  destruct (decide _); [by left|]. apply IH.
Qed.

Lemma waitRunning_answered n : ∀ i,
  (∀ m, m < n → ∃ st, Status_reply world (i + m) = inl st) →
  result (waitRunning world n i) = Done tt.
Proof.
  induction n as [|n IH]; intros i Hans; [done|].
  destruct (Hans 0) as [st Hst]; [lia|]. rewrite Nat.add_0_r in Hst.
  rewrite waitRunning_S, Hst. destruct (decide _); [done|].
  apply IH. intros m Hm. replace (S i + m) with (i + S m) by lia. apply Hans. lia.
Qed.

Lemma waitRunning_quiet n i e :
  e ∈ trace (waitRunning world n i) →
  isListen e = false ∧ isExpandSNIName e = false ∧ isServe e = false.
Proof. intros [->|[->|[line ->]]]%waitRunning_events; done. Qed.

Lemma firstListen_None (t : list Event) :
  (∀ e, e ∈ t → isListen e = false) → firstListen t = None.
Proof.
  induction t as [|e t IH]; [done|]. intros Hall. cbn.
  rewrite (Hall e) by apply list_elem_of_here.
  apply IH. intros e' He'. apply Hall. by apply list_elem_of_further.
Qed.

Lemma waitRunning_no_listen n i :
  firstListen (trace (waitRunning world n i)) = None.
Proof.
  apply firstListen_None. intros e He.
  by apply waitRunning_quiet in He as [Hl _].
Qed.

Lemma beforeListen_None (t : list Event) :
  firstListen t = None → beforeListen t = None.
Proof.
  induction t as [|e t IH]; [done|]. cbn. destruct (isListen e); [done|].
  intros Hn. by rewrite IH.
Qed.

(** The trace and the result of the goroutine when the loop returns. *)
Lemma redirectTask_completed hostname :
  result (waitRunning world 60 0) = Done tt →
  trace (redirectTask world hostname) =
    trace (waitRunning world 60 0) ++ trace (afterPoll world hostname) ∧
  result (redirectTask world hostname) = result (afterPoll world hostname).
Proof. intros Hres. by rewrite redirectTask_after_loop. Qed.

(** The trace and the result of the goroutine when the loop dies. *)
Lemma redirectTask_died hostname line :
  result (waitRunning world 60 0) = Fatal line →
  redirectTask world hostname = (trace (waitRunning world 60 0), Fatal line).
Proof. intros Hres. rewrite redirectTask_unfold. by apply bind_Fatal. Qed.

End Goroutine.

(** X4: no thread of a run returns: each one dies in [log.Fatal] or
    stays in [http.Serve]; and a thread that stays there has that call as
    its last event, on a listener whose serving never fails. *)
Theorem X4_threads_never_return (world : World) (f : Flags) (p : Proc unit) :
  p ∈ threads world f →
  isDone (result p) = false ∧
  (result p = Serving →
   ∃ ln h, last (trace p) = Some (EvServe ln h) ∧ Serve_reply world ln = None).
Proof.
  intros [->|[_ ->]]%elem_of_threads.
  - destruct (main_valid_or_dead world f) as [(Hh & Hd & Hb)|[line ->]]; [|done].
    destruct (url_Parse_reply world ("http://" +:+ backendAddr f)) as [url|err] eqn:Hurl.
    2: { rewrite main_valid, Hurl by done. done. }
    rewrite (main_parsed world f url) by done.
    destruct (useHTTPS f).
    + destruct (Listen_reply world ":443"); [done|].
      destruct (Serve_reply world _) eqn:Hs; [done|]. split; [done|]. eauto.
    + destruct (Listen_reply world ":80"); [done|].
      destruct (Serve_reply world _) eqn:Hs; [done|]. split; [done|]. eauto.
  - destruct (waitRunning_result world 60 0) as [Hres|[err Hres]].
    + destruct (redirectTask_completed world (hostname f) Hres) as [-> ->].
      rewrite afterPoll_cases.
      destruct (Listen_reply world ":80"); [done|].
      destruct (ExpandSNIName_reply world (hostname f)) as [name []]; cbn [snd fst]; [|done].
      destruct (Serve_reply world _) eqn:Hs; [done|]. split; [done|].
      intros _. do 2 eexists. split; [|exact Hs].
      cbn [trace fst]. by rewrite last_app.
    + rewrite (redirectTask_died world (hostname f) _ Hres). done.
Qed.

Lemma X4_witness :
  isDone (result (redirectTask calmWorld "svc")) = false ∧
  (result (redirectTask calmWorld "svc") = Serving →
   ∃ ln h, last (trace (redirectTask calmWorld "svc")) = Some (EvServe ln h) ∧
           Serve_reply calmWorld ln = None).
Proof.
  apply (X4_threads_never_return calmWorld tlsFlags (redirectTask calmWorld "svc")).
  vm_compute. apply list_elem_of_In. right. left. reflexivity.
Defined.

Lemma statusAnswered_loop world :
  statusAnswered world 60 → result (waitRunning world 60 0) = Done tt.
Proof. intros Hans. apply waitRunning_answered. intros m Hm. by apply Hans. Qed.

(** X5: when no status query fails and [ts.Listen] for the plaintext
    port fails, the goroutine dies in [log.Fatal] with that error right
    after the call: the secure name is not asked for and nothing is
    served. *)
Theorem X5_plain_listen_error_fatal (world : World) (hostname : string) (err : error) :
  statusAnswered world 60 →
  Listen_reply world ":80" = Some err →
  result (redirectTask world hostname) = Fatal (Error err) ∧
  last (trace (redirectTask world hostname)) = Some (EvListen ":80" false) ∧
  ∀ e, e ∈ trace (redirectTask world hostname) →
       isExpandSNIName e = false ∧ isServe e = false.
Proof.
  intros Hans%statusAnswered_loop Hlisten.
  destruct (redirectTask_completed world hostname Hans) as [-> ->].
  rewrite afterPoll_cases, Hlisten. cbn [trace result fst snd].
  split; [done|]. split; [by rewrite last_app|].
  intros e [He|He]%elem_of_app.
  - by apply waitRunning_quiet in He as (_ & ? & ?).
  - apply list_elem_of_singleton in He as ->. done.
Qed.

(** A world in which the plaintext port cannot be bound. *)
Definition noPlainPort : World :=
  withListen (λ addr, if decide (addr = ":80")
                      then Some (errorString "address already in use") else None).

Lemma calm_statusAnswered (reply : string → option error) :
  statusAnswered (withListen reply) 60.
Proof. intros i _. eexists. reflexivity. Qed.

Lemma X5_witness :
  result (redirectTask noPlainPort "svc") = Fatal "address already in use" ∧
  last (trace (redirectTask noPlainPort "svc")) = Some (EvListen ":80" false) ∧
  ∀ e, e ∈ trace (redirectTask noPlainPort "svc") →
       isExpandSNIName e = false ∧ isServe e = false.
Proof.
  apply (X5_plain_listen_error_fatal noPlainPort "svc" (errorString "address already in use"));
    [apply calm_statusAnswered | reflexivity].
Defined.

(** X6: when no status query fails, the plaintext listener opens and
    [ExpandSNIName] does not give a name for the hostname, the goroutine
    dies in [log.Fatal] with "can't get hostname for https redirect": the
    listener has been opened by then, and nothing is served on it. *)
Theorem X6_no_secure_name_fatal (world : World) (hostname : string) :
  statusAnswered world 60 →
  Listen_reply world ":80" = None →
  (ExpandSNIName_reply world hostname).2 = false →
  result (redirectTask world hostname) = Fatal "can't get hostname for https redirect" ∧
  firstListen (trace (redirectTask world hostname)) = Some (EvListen ":80" true) ∧
  last (trace (redirectTask world hostname)) = Some (EvExpandSNIName hostname) ∧
  ∀ e, e ∈ trace (redirectTask world hostname) → isServe e = false.
Proof.
  intros Hans%statusAnswered_loop Hlisten Hname.
  destruct (redirectTask_completed world hostname Hans) as [-> ->].
  rewrite afterPoll_cases, Hlisten, Hname. cbn [trace result fst snd].
  split; [done|]. split; [by rewrite firstListen_app by apply waitRunning_no_listen|].
  split.
  { change [EvListen ":80" true; EvExpandSNIName hostname]
      with ([EvListen ":80" true] ++ [EvExpandSNIName hostname]).
    by rewrite app_assoc, last_app. }
  intros e [He|He]%elem_of_app.
  - by apply waitRunning_quiet in He as (_ & _ & ?).
  - revert He. rewrite !elem_of_cons. intros [->|[->|?%not_elem_of_nil]]; done.
Qed.

(** A world in which the node has no certificate domain. *)
Definition noCertDomain : World := withExpand (λ _, ("", false)).

Lemma X6_witness :
  result (redirectTask noCertDomain "svc") = Fatal "can't get hostname for https redirect" ∧
  firstListen (trace (redirectTask noCertDomain "svc")) = Some (EvListen ":80" true) ∧
  last (trace (redirectTask noCertDomain "svc")) = Some (EvExpandSNIName "svc") ∧
  ∀ e, e ∈ trace (redirectTask noCertDomain "svc") → isServe e = false.
Proof.
  apply (X6_no_secure_name_fatal noCertDomain "svc"); [|reflexivity|reflexivity].
  intros i _. eexists. reflexivity.
Defined.

Section PollBounds.

Context (world : World).

Lemma waitRunning_bounds n : ∀ i,
  polls (trace (waitRunning world n i)) ≤ n ∧
  (1 ≤ n → 1 ≤ polls (trace (waitRunning world n i))) ∧
  (S (sleeps (trace (waitRunning world n i))) = polls (trace (waitRunning world n i)) ∨
   (sleeps (trace (waitRunning world n i)) = n ∧
    polls (trace (waitRunning world n i)) = n)).
Proof.
  induction n as [|n IH]; intros i.
  - cbn. split; [done|]. split; [lia|]. by right.
  - rewrite waitRunning_S.
    destruct (Status_reply world i) as [st|err]; [destruct (decide _)|].
    + unfold polls, sleeps; cbn. split; [lia|]. split; [lia|]. by left.
    + destruct (IH (S i)) as (Hle & _ & Hs).
      unfold polls, sleeps in *. cbn [trace fst List.filter isStatus isSleep length].
      split; [lia|]. split; [lia|]. lia.
    + unfold polls, sleeps; cbn. split; [lia|]. split; [lia|]. by left.
Qed.

(** A loop that returned before its last turn saw "Running" at its last
    query, and another state at every query before. *)
Lemma waitRunning_early n : ∀ i,
  result (waitRunning world n i) = Done tt →
  polls (trace (waitRunning world n i)) < n →
  runningAt world (i + (polls (trace (waitRunning world n i)) - 1)) ∧
  ∀ m, m < polls (trace (waitRunning world n i)) - 1 → notRunningAt world (i + m).
Proof.
  induction n as [|n IH]; intros i; [lia|].
  rewrite waitRunning_S.
  destruct (Status_reply world i) as [st|err] eqn:Hst; [destruct (decide _) as [Hr|Hr]|].
  - intros _ _. unfold polls; cbn. rewrite Nat.add_0_r.
    split; [by exists st|]. lia.
  - unfold polls. cbn [trace result fst snd List.filter isStatus length].
    fold (polls (trace (waitRunning world n (S i)))).
    intros Hres Hlt.
    destruct (waitRunning_bounds n (S i)) as (_ & Hge & _).
    destruct (IH (S i) Hres) as [Hrun Hnot]; [lia|].
    assert (1 ≤ polls (trace (waitRunning world n (S i)))) as Hp by (apply Hge; lia).
    split.
    + replace (i + (S (polls (trace (waitRunning world n (S i)))) - 1))
        with (S i + (polls (trace (waitRunning world n (S i))) - 1)) by lia.
      exact Hrun.
    + intros [|m] Hm.
      * rewrite Nat.add_0_r. by exists st.
      * replace (i + S m) with (S i + m) by lia. apply Hnot. lia.
  - discriminate.
Qed.

End PollBounds.

Lemma afterPoll_no_poll world hostname :
  polls (trace (afterPoll world hostname)) = 0 ∧
  sleeps (trace (afterPoll world hostname)) = 0.
Proof.
  rewrite afterPoll_cases.
  destruct (Listen_reply world ":80"); [done|].
  by destruct (ExpandSNIName_reply world hostname) as [name []].
Qed.

(** X7: in every world the goroutine makes at least one and at most 60
    status queries; it sleeps once after each query but the last, or,
    when the loop runs out, once after each of the 60. *)
Theorem X7_poll_bounds (world : World) (hostname : string) :
  1 ≤ polls (trace (redirectTask world hostname)) ≤ 60 ∧
  (S (sleeps (trace (redirectTask world hostname))) = polls (trace (redirectTask world hostname)) ∨
   (sleeps (trace (redirectTask world hostname)) = 60 ∧
    polls (trace (redirectTask world hostname)) = 60)).
Proof.
  destruct (waitRunning_bounds world 60 0) as (Hle & Hge & Hs).
  destruct (waitRunning_result world 60 0) as [Hres|[err Hres]].
  - destruct (redirectTask_completed world hostname Hres) as [-> _].
    destruct (afterPoll_no_poll world hostname) as [Hp Hsl].
    rewrite polls_app, sleeps_app, Hp, Hsl, !Nat.add_0_r.
    split; [split; [apply Hge; lia|done]|done].
  - rewrite (redirectTask_died world hostname _ Hres). cbn [trace fst].
    split; [split; [apply Hge; lia|done]|done].
Qed.

(** X8: when the goroutine calls [ts.Listen] after fewer than 60 status
    queries, the last of them was answered "Running" and every one before
    it was answered with another state: short of the bound, the plaintext
    listener is never opened on a network that has not reported
    "Running". *)
Theorem X8_early_listen_means_running (world : World) (hostname : string)
    (pre : list Event) :
  beforeListen (trace (redirectTask world hostname)) = Some pre →
  polls pre < 60 →
  runningAt world (polls pre - 1) ∧
  ∀ i, i < polls pre - 1 → notRunningAt world i.
Proof.
  intros Hpre Hlt.
  destruct (waitRunning_result world 60 0) as [Hres|[err Hres]].
  - destruct (redirectTask_completed world hostname Hres) as [Htrace _].
    pose proof (waitRunning_no_listen world 60 0) as Hquiet.
    pose proof (waitRunning_early world 60 0 Hres) as Hearly.
    destruct (afterPoll_trace world hostname) as (rest & Hafter & _).
    rewrite Htrace, Hafter in Hpre. clear Htrace Hres.
    generalize dependent (trace (waitRunning world 60 0)). intros loop Hpre Hquiet Hearly.
    rewrite beforeListen_app in Hpre by done.
    cbn [beforeListen isListen fmap option_fmap option_map] in Hpre.
    injection Hpre as <-. rewrite app_nil_r in *.
    by apply Hearly.
  - rewrite (redirectTask_died world hostname _ Hres) in Hpre. cbn [trace fst] in Hpre.
    rewrite beforeListen_None in Hpre by apply waitRunning_no_listen. discriminate.
Qed.

Lemma X8_witness :
  runningAt calmWorld (polls [EvStatus; EvLog "tailscale status: Starting"; EvSleep;
                              EvStatus; EvLog "tailscale status: Starting"; EvSleep;
                              EvStatus; EvLog "tailscale status: Running"] - 1) ∧
  ∀ i, i < polls [EvStatus; EvLog "tailscale status: Starting"; EvSleep;
                  EvStatus; EvLog "tailscale status: Starting"; EvSleep;
                  EvStatus; EvLog "tailscale status: Running"] - 1 →
       notRunningAt calmWorld i.
Proof.
  apply (X8_early_listen_means_running calmWorld "svc").
  - vm_compute. reflexivity.
  - vm_compute. lia.
Defined.

(** ** The header injector, in general *)

Definition isWhoIs (e : Event) : bool :=
  match e with EvWhoIs _ => true | _ => false end.

(** X9: in every world and for every request the injector returns a
    request, with the path, the peer address and every header other than
    X-Webauth-User and X-Webauth-Name as they came; it asks the identity
    service once, for the peer address of the request, on the login path,
    and not at all on any other path. *)
Theorem X9_injector_frame (world : World) (req : Request) :
  ∃ req', result (modifyRequest world req) = Done req' ∧
    URL_Path req' = URL_Path req ∧
    RemoteAddr req' = RemoteAddr req ∧
    (∀ key, key ≠ "X-Webauth-User" → key ≠ "X-Webauth-Name" →
            Header req' !! key = Header req !! key) ∧
    List.filter isWhoIs (trace (modifyRequest world req)) =
      if decide (URL_Path req = "/login") then [EvWhoIs (RemoteAddr req)] else [].
Proof.
  destruct (decide (URL_Path req = "/login")) as [Hp|Hp].
  - rewrite modifyRequest_login, getTailscaleUser_result by done.
    destruct (WhoIs_reply world (RemoteAddr req)) as [[[tags] profile]|err].
    + destruct tags as [|tag tags]; [destruct profile as [profile|]|]; cbn;
        [destruct (decide (LoginName profile = ""))| |]; eexists;
        (split; [reflexivity|]); cbn; repeat split; try done.
      intros key Hu Hn. unfold Header_Set. by rewrite !lookup_insert_ne.
    + eexists. split; [reflexivity|]. done.
  - rewrite modifyRequest_other_path by done. by exists req.
Qed.

(** The login request after the injection of [ann]. *)
Definition injectedLogin : Request :=
  set_Header spoofedLogin
    (Header_Set "X-Webauth-Name" "Ann"
       (Header_Set "X-Webauth-User" "a@b.com" (Header spoofedLogin))).

(** X10: the injector changes a request only on the login path and only
    from a reply of the identity service without tags and with a profile
    whose login name is not empty; the changed request carries that login
    name and that display name, each as the single value of its header.
    So the user header is never set to an empty name or for a tagged
    node. *)
Theorem X10_change_means_identity (world : World) (req req' : Request) :
  result (modifyRequest world req) = Done req' →
  req' ≠ req →
  URL_Path req = "/login" ∧
  ∃ whois user,
    WhoIs_reply world (RemoteAddr req) = inl whois ∧
    Tags (WhoIs_Node whois) = [] ∧
    WhoIs_UserProfile whois = Some user ∧
    LoginName user ≠ "" ∧
    Header req' !! "X-Webauth-User" = Some [LoginName user] ∧
    Header req' !! "X-Webauth-Name" = Some [DisplayName user].
Proof.
  intros Hres Hne.
  destruct (decide (URL_Path req = "/login")) as [Hp|Hp].
  2: { rewrite modifyRequest_other_path in Hres by done. by injection Hres as <-. }
  split; [done|]. rewrite modifyRequest_login in Hres by done.
  destruct (result (getTailscaleUser world (RemoteAddr req))) as [[user|err]| |] eqn:Hr;
    cbn in Hres; try discriminate.
  - apply getTailscaleUser_success in Hr as (whois & Hw & Ht & Hu & Hl).
    exists whois, user. injection Hres as <-.
    repeat split; try done; cbn; unfold Header_Set.
    + rewrite lookup_insert_ne by discriminate. by rewrite lookup_insert_eq.
    + by rewrite lookup_insert_eq.
  - by injection Hres as <-.
Qed.

Lemma X10_witness :
  URL_Path spoofedLogin = "/login" ∧
  ∃ whois user,
    WhoIs_reply calmWorld (RemoteAddr spoofedLogin) = inl whois ∧
    Tags (WhoIs_Node whois) = [] ∧
    WhoIs_UserProfile whois = Some user ∧
    LoginName user ≠ "" ∧
    Header injectedLogin !! "X-Webauth-User" = Some [LoginName user] ∧
    Header injectedLogin !! "X-Webauth-Name" = Some [DisplayName user].
Proof.
  apply (X10_change_means_identity calmWorld spoofedLogin injectedLogin).
  - reflexivity.
  - intros Heq. apply (f_equal (λ r, Header r !! "X-Webauth-Name")) in Heq.
    vm_compute in Heq. discriminate.
Defined.

(** ** The log knob, in general *)

Section LogKnobMore.

Import logknob.

Context {Environ : Type} (envknob_RegisterBool : string → Environ → bool).

Lemma updateFromCaps_eq (caps : list string) (l : @LogKnob Environ) :
  updateFromCaps caps l = cap_Store (bool_decide (capName l ∈ caps)) l.
Proof.
  induction caps as [|c caps IH]; cbn.
  - by rewrite bool_decide_eq_false_2 by apply not_elem_of_nil.
  - destruct (decide (c = capName l)) as [->|Hne].
    + by rewrite bool_decide_eq_true_2 by apply list_elem_of_here.
    + rewrite IH. f_equal. apply bool_decide_ext. rewrite elem_of_cons.
      split; [by right|]. intros [Heq|Hin]; [congruence|done].
Qed.

(** X11: [NewLogKnob] panics exactly when both names are empty;
    otherwise the new knob has the capability name, both flags off, and
    logs exactly when the envknob of its variable is on, and never when
    it was made without a variable. *)
Theorem X11_NewLogKnob (envName capability : string) :
  (NewLogKnob envknob_RegisterBool envName capability = None ↔
   envName = "" ∧ capability = "") ∧
  ∀ l, NewLogKnob envknob_RegisterBool envName capability = Some l →
       capName l = capability ∧ manual l = false ∧ cap l = false ∧
       ∀ e, shouldLog l e =
            if decide (envName = "") then false else envknob_RegisterBool envName e.
Proof.
  unfold NewLogKnob.
  destruct (decide (envName = "")) as [He|He], (decide (capability = "")) as [Hc|Hc].
  - rewrite !bool_decide_eq_true_2 by done. cbn. split; [done|]. intros l [=].
  - rewrite bool_decide_eq_true_2, bool_decide_eq_false_2 by done. cbn.
    split; [split; [done|by intros [_ ?]]|].
    intros l [= <-]. cbn. repeat split. intros e. unfold shouldLog. cbn.
    by destruct (decide (envName ≠ "")).
  - rewrite bool_decide_eq_false_2 by done. cbn.
    split; [split; [done|by intros [? _]]|].
    intros l [= <-]. cbn. repeat split. intros e. unfold shouldLog. cbn.
    destruct (decide (envName ≠ "")); [|done]. by rewrite orb_false_r.
  - rewrite bool_decide_eq_false_2 by done. cbn.
    split; [split; [done|by intros [? _]]|].
    intros l [= <-]. cbn. repeat split. intros e. unfold shouldLog. cbn.
    destruct (decide (envName ≠ "")); [|done]. by rewrite orb_false_r.
Qed.

(** X12: of two updates from net maps the later one decides: the knob
    after both is the knob after the second alone (so an update repeated
    changes nothing); and a knob without a capability name is left as it
    is by every update, also by a net map that lists the empty string. *)
Theorem X12_UpdateFromNetMap_last_wins (T1 T2 : Type) (netMap1 : NetMap T1)
    (netMap2 : NetMap T2) (nm1 : T1) (nm2 : T2) (l : @LogKnob Environ) :
  UpdateFromNetMap nm2 (UpdateFromNetMap nm1 l) = UpdateFromNetMap nm2 l ∧
  UpdateFromNetMap nm1 (UpdateFromNetMap nm1 l) = UpdateFromNetMap nm1 l ∧
  (capName l = "" → UpdateFromNetMap nm1 l = l).
Proof.
  assert (∀ (T T' : Type) (I : NetMap T) (I' : NetMap T') (a : T) (b : T'),
            UpdateFromNetMap b (UpdateFromNetMap a l) = UpdateFromNetMap b l) as Hlast.
  { intros T T' I I' a b. unfold UpdateFromNetMap.
    destruct (decide (capName l = "")) as [He|He].
    - by rewrite decide_True by done.
    - rewrite !updateFromCaps_eq. cbn. by rewrite decide_False by done. }
  split; [apply Hlast|]. split; [apply Hlast|].
  intros He. unfold UpdateFromNetMap. by rewrite decide_True by done.
Qed.

(** X13: [Set] and [UpdateFromNetMap] write different flags: the later
    of two [Set] decides, [Set] and an update give the same knob in
    either order, after [Set(true)] every [Do] logs its line, and after a
    later [Set(false)] a [Do] logs exactly when the environment reading
    or the capability flag is on. *)
Theorem X13_Set_and_update (T : Type) (netMap : NetMap T) (nm : T)
    (l : @LogKnob Environ) (e : Environ) (v1 v2 : bool) (line : string) :
  Set_ v2 (Set_ v1 l) = Set_ v2 l ∧
  Set_ v1 (UpdateFromNetMap nm l) = UpdateFromNetMap nm (Set_ v1 l) ∧
  Do (Set_ true l) e line = [line] ∧
  Do (Set_ false (Set_ true l)) e line = (if env l e || cap l then [line] else []).
Proof.
  split; [done|]. split; [|done].
  unfold UpdateFromNetMap. cbn.
  destruct (decide (capName l = "")); [done|].
  by rewrite !updateFromCaps_eq.
Qed.

(** X14: a knob made with a capability name and no environment
    variable logs exactly when the net map of its last update lists the
    capability: an update with it turns the logging on, a later update
    without it turns the logging off again. *)
Theorem X14_capability_only_knob (T : Type) (netMap : NetMap T)
    (capability : string) (l : @LogKnob Environ) (nm : T) (e : Environ) (line : string) :
  NewLogKnob envknob_RegisterBool "" capability = Some l →
  shouldLog (UpdateFromNetMap nm l) e = bool_decide (capability ∈ SelfCapabilities nm) ∧
  Do (UpdateFromNetMap nm l) e line =
    (if bool_decide (capability ∈ SelfCapabilities nm) then [line] else []).
Proof.
  unfold NewLogKnob. destruct (decide (capability = "")) as [Hc|Hc].
  { rewrite !bool_decide_eq_true_2 by done. intros [=]. }
  rewrite bool_decide_eq_true_2, bool_decide_eq_false_2 by done. cbn.
  intros [= <-].
  unfold Do, shouldLog, UpdateFromNetMap. cbn [capName].
  rewrite decide_False by done. rewrite updateFromCaps_eq.
  cbn [cap_Store capName cap env manual].
  destruct (decide ("" ≠ "")); [done|]. cbn [orb].
  split; [done|]. done.
Qed.

End LogKnobMore.

(** An environment as the truth value of each variable, and the envknob
    that reads one of them. *)
Definition readEnviron (name : string) (environ : string → bool) : bool := environ name.

(** A knob for the capability "debug-disco" alone, as [NewLogKnob]
    makes it. *)
Definition discoKnob : @logknob.LogKnob (string → bool) :=
  {| logknob.capName := "debug-disco"; logknob.cap := false;
     logknob.env := λ _, false; logknob.manual := false |}.

Lemma X14_witness :
  logknob.shouldLog
    (logknob.UpdateFromNetMap (H := caps_NetMap) ["other"; "debug-disco"] discoKnob)
    (λ _, false) = bool_decide ("debug-disco" ∈ ["other"; "debug-disco"]) ∧
  logknob.Do
    (logknob.UpdateFromNetMap (H := caps_NetMap) ["other"; "debug-disco"] discoKnob)
    (λ _, false) "disco: ping" =
  (if bool_decide ("debug-disco" ∈ ["other"; "debug-disco"]) then ["disco: ping"] else []).
Proof.
  apply (X14_capability_only_knob readEnviron (list string) caps_NetMap "debug-disco"
           discoKnob ["other"; "debug-disco"] (λ _, false) "disco: ping").
  reflexivity.
Defined.
